(** * aeronet.dataset.raster.band: Band and BandSample

    A shallow embedding of [aeronet/dataset/raster/band.py] and the proofs of
    its windowing, tiling, resampling and life-cycle properties.

    Modelling conventions.
    - Python integers are [Z]; Python floats (affine coefficients, pixel
      values, nodata) are exact rationals [Q], so rounding error of the
      floating-point unit is outside the model. Where a result depends on
      how a quotient rounds to an integer, the quotient is taken clear of
      the rounding ties ([clear_of_ties]), so that the rational and the
      double round alike.
    - A numpy array is a shape and a row-major buffer ([np.ndarray]).
    - Exceptions are values of [exn]; a call that may raise returns [result].
    - The file system, the name generator and the calls made to the raster
      codec and the warp engine are threaded through a [world]; an operation
      with effects has type [M A = world -> result A * world], and a raise
      keeps the effects made before it.
    - The collaborators the module imports (CRS parsing, UTM zone selection,
      default transform, warp kernel, random names) are the fields of
      [Externals], a variable of the section that holds the code. *)

From Stdlib Require Import ZArith QArith Qabs Qround Lia Lqa List Ascii String.
From stdpp Require Import gmap strings.
Import ListNotations.

Local Open Scope Z_scope.

(** ** Exceptions and results *)

Inductive exn : Type :=
| CRSError          (* rasterio.errors.CRSError *)
| ValueError        (* shape guard *)
| TypeError         (* Affine built from a tuple of the wrong length *)
| AttributeError    (* getattr(Resampling, interpolation) *)
| ZeroDivisionError (* float division by zero *)
| RasterioIOError   (* rasterio.open on a missing path *)
| FileNotFoundError (* os.remove on a missing path, os.makedirs on '' *)
| CodecError.       (* the codec refuses to create a dataset *)

Inductive result (A : Type) : Type :=
| Ok (x : A)
| Raise (err : exn).
Arguments Ok {A} x.
Arguments Raise {A} err.

Definition rbind {A B} (r : result A) (k : A -> result B) : result B :=
  match r with
  | Ok x => k x
  | Raise err => Raise err
  end.

(** ** Numbers *)

(** [int(q)]: truncation toward zero. *)
Definition py_int (q : Q) : Z := Z.quot (Qnum q) (Z.pos (Qden q)).

(** [round(q)]: nearest integer, ties to the even one. *)
Definition py_round (q : Q) : Z :=
  let fl := Qfloor q in
  match Qcompare (q - inject_Z fl) (1 # 2) with
  | Lt => fl
  | Gt => fl + 1
  | Eq => if Z.even fl then fl else fl + 1
  end.

(** [x / y] on floats raises on a zero divisor. *)
Definition py_div (x y : Q) : result Q :=
  if Qeq_bool y 0 then Raise ZeroDivisionError else Ok (x / y)%Q.

(** [range(start, stop, step)] as the list of its items; [step = 0] raises. *)
Definition range_len (start stop step : Z) : Z :=
  if 0 <? step then
    (if start <? stop then (stop - start - 1) / step + 1 else 0)
  else
    (if stop <? start then (start - stop - 1) / (- step) + 1 else 0).

Definition py_range (start stop step : Z) : result (list Z) :=
  if step =? 0 then Raise ValueError
  else Ok (map (fun i => start + Z.of_nat i * step)
               (seq 0 (Z.to_nat (range_len start stop step)))).

(** ** Affine transforms, bounding boxes, coordinate reference systems *)

(** [rasterio.Affine(a, b, c, d, e, f)]: x = c + col*a + row*b,
    y = f + col*d + row*e. *)
Record Affine : Type := mkAffine {
  aff_a : Q; aff_b : Q; aff_c : Q;
  aff_d : Q; aff_e : Q; aff_f : Q
}.

Definition Affine_eqb (t u : Affine) : bool :=
  Qeq_bool (aff_a t) (aff_a u) && Qeq_bool (aff_b t) (aff_b u) &&
  Qeq_bool (aff_c t) (aff_c u) && Qeq_bool (aff_d t) (aff_d u) &&
  Qeq_bool (aff_e t) (aff_e u) && Qeq_bool (aff_f t) (aff_f u).

(** [rasterio.coords.BoundingBox(left, bottom, right, top)]. *)
Record BoundingBox : Type := mkBoundingBox {
  bb_left : Q; bb_bottom : Q; bb_right : Q; bb_top : Q
}.

(** [rasterio.crs.CRS]: an opaque value to this module, which uses only its
    equality and its [is_valid] property. *)
Record CRS : Type := mkCRS {
  crs_def : string;
  is_valid : bool
}.

Definition CRS_eqb (x y : CRS) : bool :=
  String.eqb (crs_def x) (crs_def y) && Bool.eqb (is_valid x) (is_valid y).

(** An argument that is either a CRS or something [CRS.from_user_input]
    has to interpret. *)
Inductive crs_arg : Type :=
| ArgCRS (x : CRS)
| ArgStr (s : string).

(** An argument that is either an [Affine] or a tuple of coefficients. *)
Inductive transform_arg : Type :=
| ArgAffine (t : Affine)
| ArgTuple (l : list Q).

(** [Affine] applied to the unpacked tuple [l]: six coefficients. *)
Definition Affine_of_tuple (l : list Q) : result Affine :=
  match l with
  | [a; b; c; d; e; f] => Ok (mkAffine a b c d e f)
  | _ => Raise TypeError
  end.

(** ** Arrays *)

Module np.

Record ndarray : Type := mkArr {
  shape : list nat;
  buf : list Q
}.

(** [a.shape[i]] *)
Definition shape_at (arr : ndarray) (i : nat) : Z :=
  Z.of_nat (nth i (shape arr) 0%nat).

(** Row-major buffer of an [nr] by [nc] grid whose cell (i, j) is [g i j]. *)
Definition tabulate2 (nr nc : nat) (g : nat -> nat -> Q) : list Q :=
  flat_map (fun i => map (g i) (seq 0 nc)) (seq 0 nr).

(** Cell (i, j) of a 2-D array. *)
Definition cell2 (arr : ndarray) (i j : nat) : Q :=
  nth (i * nth 1 (shape arr) 0 + j)%nat (buf arr) 0%Q.


(** Bounds of the slice [start:stop] on an axis of length [n]
    (Python's [slice.indices] with step 1): a negative index counts from
    the end, and both ends are clamped to [0, n]. *)
Definition slice_index (n i : Z) : Z :=
  if i <? 0 then Z.max 0 (i + n) else Z.min i n.

Definition slice_bounds (n start stop : Z) : nat * nat :=
  let s := slice_index n start in
  let t := slice_index n stop in
  (Z.to_nat s, Z.to_nat (t - s)).

(** [arr[r0:r1, c0:c1]] on a 2-D array. *)
Definition slice2 (arr : ndarray) (r0 r1 c0 c1 : Z) : ndarray :=
  let '(rs, rn) := slice_bounds (shape_at arr 0) r0 r1 in
  let '(cs, cn) := slice_bounds (shape_at arr 1) c0 c1 in
  {| shape := [rn; cn];
     buf := tabulate2 rn cn (fun i j => cell2 arr (rs + i) (cs + j)) |}.

(** [np.empty(shape=dims)]: a negative dimension raises; the content is
    unspecified and is overwritten by the warp before it is read. *)
Definition empty (dims : list Z) : result ndarray :=
  if forallb (fun n => 0 <=? n) dims
  then Ok {| shape := map Z.to_nat dims;
             buf := repeat 0%Q (fold_right Nat.mul 1%nat (map Z.to_nat dims)) |}
  else Raise ValueError.

End np.

(** Modelled from the spec: [band_shape_guard] of
    [aeronet/dataset/raster/_utils.py], which is not among the sources.
    Section 4.1 fixes what it takes: a 2-D (H, W) array or a 3-D (1, H, W)
    array, any other rank or leading dimension being a shape failure.
    The array it returns is the one [BandSample] indexes as
    [shape[0]] = height, [shape[1]] = width and slices as
    [[y:y+h, x:x+w]], so the band axis of a 3-D input is dropped
    (the buffer is the same). *)
Definition band_shape_guard (raster : np.ndarray) : result np.ndarray :=
  match np.shape raster with
  | [_; _] => Ok raster
  | [1%nat; h; w] => Ok {| np.shape := [h; w]; np.buf := np.buf raster |}
  | _ => Raise ValueError
  end.

(** ** Paths *)

Definition sep : ascii := "/"%char.

Fixpoint drop_while (p : ascii -> bool) (l : list ascii) : list ascii :=
  match l with
  | [] => []
  | x :: r => if p x then drop_while p r else l
  end.

Fixpoint take_while (p : ascii -> bool) (l : list ascii) : list ascii :=
  match l with
  | [] => []
  | x :: r => if p x then x :: take_while p r else []
  end.

Definition is_sep (x : ascii) : bool := Ascii.eqb x sep.
Definition not_sep (x : ascii) : bool := negb (is_sep x).

(** [os.path.basename]: what follows the last separator. *)
Definition basename (p : string) : string :=
  string_of_list_ascii
    (rev (take_while not_sep (rev (list_ascii_of_string p)))).

(** [os.path.dirname]: what precedes the last separator, without its
    trailing separators unless it consists of separators only. *)
Definition dirname (p : string) : string :=
  let head := rev (drop_while not_sep (rev (list_ascii_of_string p))) in
  string_of_list_ascii
    (if forallb is_sep head then head
     else rev (drop_while is_sep (rev head))).

(** [s.split('.')[0]] *)
Definition before_dot (s : string) : string :=
  string_of_list_ascii
    (take_while (fun x => negb (Ascii.eqb x "."%char)) (list_ascii_of_string s)).

Definition TMP_DIR : string := "/tmp/raster".

(** ** The raster codec: files, handles, the world *)

(** [rasterio.warp.Resampling] and [getattr(Resampling, name)] for the
    names of its members. A name that is an attribute of the enumeration
    class without being a member is answered like an unknown one; the
    statements that depend on the lookup raising take names that are not
    identifiers, which no attribute has. *)
Inductive Resampling : Type :=
| R_nearest | R_bilinear | R_cubic | R_cubic_spline | R_lanczos
| R_average | R_mode | R_gauss | R_max | R_min | R_med | R_q1 | R_q3.

Definition Resampling_getattr (name : string) : result Resampling :=
  if String.eqb name "nearest" then Ok R_nearest
  else if String.eqb name "bilinear" then Ok R_bilinear
  else if String.eqb name "cubic" then Ok R_cubic
  else if String.eqb name "cubic_spline" then Ok R_cubic_spline
  else if String.eqb name "lanczos" then Ok R_lanczos
  else if String.eqb name "average" then Ok R_average
  else if String.eqb name "mode" then Ok R_mode
  else if String.eqb name "gauss" then Ok R_gauss
  else if String.eqb name "max" then Ok R_max
  else if String.eqb name "min" then Ok R_min
  else if String.eqb name "med" then Ok R_med
  else if String.eqb name "q1" then Ok R_q1
  else if String.eqb name "q3" then Ok R_q3
  else Raise AttributeError.

(** The [meta] dictionary of a dataset. *)
Record metadata : Type := mkMeta {
  m_driver : string;
  m_dtype : string;
  m_nodata : option Q;
  m_width : Z;
  m_height : Z;
  m_count : Z;
  m_crs : CRS;
  m_transform : Affine
}.

(** A raster file: its metadata and its pixels, band after band, each band
    row-major. *)
Record dataset : Type := mkDataset {
  ds_meta : metadata;
  ds_pixels : list Q
}.

(** An open dataset ([rasterio.open(fp)]): the path it was opened at and
    what was read from it. *)
Record reader : Type := mkReader {
  rd_name : string;
  rd_ds : dataset
}.

Inductive event : Type :=
| EvOpen (fp : string)        (* rasterio.open(fp) *)
| EvClose (fp : string)       (* handle.close() *)
| EvRemove (fp : string)      (* os.remove(fp) *)
| EvMakedirs (dir : string)   (* os.makedirs(dir, exist_ok=True) *)
| EvCreate (fp : string)      (* rasterio.open(fp, 'w', ...) *)
| EvWarp.                     (* rasterio.warp.reproject(...) *)

Record world : Type := mkWorld {
  fs : gmap string dataset;   (* the raster files on disk *)
  names_drawn : nat;          (* how many random names were drawn *)
  trace : list event          (* the calls made so far, oldest first *)
}.

Definition M (A : Type) : Type := world -> result A * world.

Definition ret {A} (x : A) : M A := fun w => (Ok x, w).
Definition raise {A} (err : exn) : M A := fun w => (Raise err, w).
Definition bind {A B} (m : M A) (k : A -> M B) : M B :=
  fun w => match m w with
           | (Ok x, w') => k x w'
           | (Raise err, w') => (Raise err, w')
           end.
Definition lift {A} (r : result A) : M A := fun w => (r, w).
Definition emit (ev : event) : M unit :=
  fun w => (Ok tt, {| fs := fs w; names_drawn := names_drawn w;
                      trace := trace w ++ [ev] |}).

Notation "'do' x <- m ; k" := (bind m (fun x => k))
  (at level 10, x name, m at level 100, k at level 200).
Notation "'do_' m ; k" := (bind m (fun _ => k))
  (at level 10, m at level 100, k at level 200).
Notation "'try' x <- r ; k" := (rbind r (fun x => k))
  (at level 10, x name, r at level 100, k at level 200).

(** Pixel (row, col) of band [k] of a dataset. *)
Definition ds_pixel (ds : dataset) (k : nat) (row col : Z) : Q :=
  let W := m_width (ds_meta ds) in
  let H := m_height (ds_meta ds) in
  nth (k * Z.to_nat (H * W) + Z.to_nat (row * W + col))%nat (ds_pixels ds) 0%Q.

(** Modelled from the spec: the windowed read of the raster codec,
    [handle.read(window=((r0, r1), (c0, c1)), boundless=True,
    fill_value=fill)], which section 6 and the glossary describe: every
    band, a full-size window, a cell outside the raster extent holding the
    fill value. *)
Definition read_boundless (rd : reader) (r0 r1 c0 c1 : Z) (fill : Q) : np.ndarray :=
  let ds := rd_ds rd in
  let W := m_width (ds_meta ds) in
  let H := m_height (ds_meta ds) in
  let h := Z.to_nat (r1 - r0) in
  let w := Z.to_nat (c1 - c0) in
  {| np.shape := [Z.to_nat (m_count (ds_meta ds)); h; w];
     np.buf := flat_map
              (fun k => np.tabulate2 h w (fun i j =>
                 let row := r0 + Z.of_nat i in
                 let col := c0 + Z.of_nat j in
                 if (0 <=? row) && (row <? H) && (0 <=? col) && (col <? W)
                 then ds_pixel ds k row col else fill))
              (seq 0 (Z.to_nat (m_count (ds_meta ds)))) |}.

(** Modelled from the spec (section 4.1): the [res] and [bounds] of a
    dataset handle, which the codec derives from transform and shape. *)
Definition rd_res (rd : reader) : Q * Q :=
  let t := m_transform (ds_meta (rd_ds rd)) in
  (Qabs (aff_a t), Qabs (aff_e t)).

Definition rd_bounds (rd : reader) : BoundingBox :=
  let mt := ds_meta (rd_ds rd) in
  let t := m_transform mt in
  let l := aff_c t in
  let tp := aff_f t in
  mkBoundingBox l (tp + aff_e t * inject_Z (m_height mt))%Q
                (l + aff_a t * inject_Z (m_width mt))%Q tp.

(** [rasterio.open(fp)] *)
Definition rasterio_open (fp : string) : M reader :=
  fun w => match fs w !! fp with
           | Some ds => do_ emit (EvOpen fp); ret (mkReader fp ds)
           | None => raise RasterioIOError
           end w.

(** The collaborators of the module. *)
Record Externals : Type := mkExternals {
  from_user_input : string -> result CRS;        (* CRS.from_user_input *)
  get_utm_zone : CRS -> Affine -> Z * Z -> CRS;   (* ..coords.get_utm_zone *)
  calculate_default_transform :
    CRS -> CRS -> Z -> Z -> BoundingBox -> Affine * Z * Z;
  (* pixels the warp engine writes into a destination of the given shape *)
  warp_kernel :
    np.ndarray -> Affine -> CRS -> Affine -> CRS -> Resampling -> list nat -> list Q;
  random_name : nat -> string                    (* ._utils.random_name *)
}.

(** What iterating a generator to its end gives: the items it yielded and
    the exception that stopped it, if one did. *)
Definition generated (A : Type) : Type := list A * option exn.

Fixpoint yield_each {A B} (body : A -> result B) (l : list A) : generated B :=
  match l with
  | [] => ([], None)
  | x :: r =>
      match body x with
      | Ok y => let '(ys, stop) := yield_each body r in (y :: ys, stop)
      | Raise err => ([], Some err)
      end
  end.

(** The loop nest of [generate_samples]:
    [for x in range(0, W, width): for y in range(0, H, height)], as the
    list of the (x, y) it visits, in order. Both ranges are built before the
    first item is yielded, the inner one only if the outer one is not
    empty. *)
Definition tile_origins (W H width height : Z) : result (list (Z * Z)) :=
  try xs <- py_range 0 W width;
  match xs with
  | [] => Ok []
  | _ => try ys <- py_range 0 H height;
         Ok (flat_map (fun x => map (fun y => (x, y)) ys) xs)
  end.

(** [os.remove(fp)] *)
Definition os_remove (fp : string) : M unit :=
  fun w => match fs w !! fp with
           | Some _ => (Ok tt, {| fs := delete fp (fs w);
                                  names_drawn := names_drawn w;
                                  trace := trace w ++ [EvRemove fp] |})
           | None => (Raise FileNotFoundError, w)
           end.

(** [os.makedirs(dir, exist_ok=True)]: the empty path, which is what
    [os.path.dirname] gives for a bare file name, is not a directory that
    can be made. What else can stop the call depends on the disk (a file
    in the way, permissions) and is outside the model, whose file system
    holds raster files only. *)
Definition os_makedirs (dir : string) : M unit :=
  match dir with
  | EmptyString => raise FileNotFoundError
  | _ => emit (EvMakedirs dir)
  end.

(** The end of a [with rasterio.open(fp, ...) as dst:] block: the handle is
    closed whether the body returned or raised. *)
Definition closing {A : Type} (fp : string) (body : M A) : M A :=
  fun w => let '(r, w') := body w in
           (r, {| fs := fs w'; names_drawn := names_drawn w';
                  trace := trace w' ++ [EvClose fp] |}).

(** Writing a dataset at [fp] (creating or replacing the file). *)
Definition write_file (fp : string) (ds : dataset) : M unit :=
  fun w => (Ok tt, {| fs := <[fp := ds]> (fs w);
                      names_drawn := names_drawn w;
                      trace := trace w |}).

(** ** BandSample *)

Module BandSample.

Record t : Type := mk {
  _name : string;
  _raster : np.ndarray;
  _nodata : Q;
  _transform : Affine;
  _crs : CRS
}.

Section WithExternals.
Context (E : Externals).

(** [BandSample(name, raster, crs, transform, nodata=0)] *)
Definition __init__ (name : string) (raster : np.ndarray) (crs : crs_arg)
    (transform : transform_arg) (nodata : Q) : result t :=
  try raster' <- band_shape_guard raster;
  try transform' <- match transform with
                    | ArgAffine tr => Ok tr
                    | ArgTuple l => Affine_of_tuple l
                    end;
  try crs' <- match crs with
              | ArgCRS x => Ok x
              | ArgStr s => from_user_input E s
              end;
  if negb (is_valid crs') then Raise CRSError
  else Ok {| _name := name; _raster := raster'; _nodata := nodata;
             _transform := transform'; _crs := crs' |}.

Definition width (self : t) : Z := np.shape_at (_raster self) 1.
Definition height (self : t) : Z := np.shape_at (_raster self) 0.
Definition count (self : t) : Z := 1.
Definition shape (self : t) : Z * Z := (height self, width self).
Definition transform (self : t) : Affine := _transform self.
Definition crs (self : t) : CRS := _crs self.
Definition nodata (self : t) : Q := _nodata self.
Definition name (self : t) : string := _name self.
Definition numpy (self : t) : np.ndarray := _raster self.

Definition res (self : t) : Q * Q :=
  (Qabs (aff_a (transform self)), Qabs (aff_e (transform self))).

Definition bounds (self : t) : BoundingBox :=
  let left := aff_c (transform self) in
  let top := aff_f (transform self) in
  let right := (left + aff_a (transform self) * inject_Z (width self))%Q in
  let bottom := (top + aff_e (transform self) * inject_Z (height self))%Q in
  mkBoundingBox left bottom right top.

Definition same (self other : t) : bool :=
  let res := true in
  let res := res && CRS_eqb (crs self) (crs other) in
  let res := res && Affine_eqb (transform self) (transform self) in
  let res := res && (height self =? height self) in
  let res := res && (width self =? width self) in
  res.

Definition sample (self : t) (y x height width : Z) : result t :=
  let coord_x := (aff_c (transform self) + inject_Z x * aff_a (transform self))%Q in
  let coord_y := (aff_f (transform self) + inject_Z y * aff_e (transform self))%Q in
  let dst_transform :=
    mkAffine (aff_a (transform self)) (aff_b (transform self)) coord_x
             (aff_d (transform self)) (aff_e (transform self)) coord_y in
  let dst_raster := np.slice2 (_raster self) y (y + height) x (x + width) in
  __init__ (name self) dst_raster (ArgCRS (crs self)) (ArgAffine dst_transform)
           (nodata self).

(** The destination CRS of [reproject]: the token 'utm', a CRS, or
    something to parse. *)
Definition resolve_crs (self_crs : CRS) (self_transform : Affine)
    (self_shape : Z * Z) (dst_crs : crs_arg) : result CRS :=
  match dst_crs with
  | ArgStr s =>
      if String.eqb s "utm"
      then Ok (get_utm_zone E self_crs self_transform self_shape)
      else from_user_input E s
  | ArgCRS x => Ok x
  end.

(** [rasterio.warp.reproject(source, destination, ...)]: fills the
    destination array. What the warp engine refuses on its own account (a
    destination with no row or no column, for one) is outside the model:
    the statements below that say a sample is returned are made, and
    witnessed, for destinations that have rows and columns. *)
Definition warp (source destination : np.ndarray) (src_transform : Affine)
    (src_crs : CRS) (dst_transform : Affine) (dst_crs : CRS)
    (resampling : Resampling) : M np.ndarray :=
  do_ emit EvWarp;
  ret {| np.shape := np.shape destination;
         np.buf := warp_kernel E source src_transform src_crs dst_transform
                               dst_crs resampling (np.shape destination) |}.

Definition reproject (self : t) (dst_crs : crs_arg) (interpolation : string)
    : M t :=
  do dst_crs <- lift (resolve_crs (crs self) (transform self)
                                  (height self, width self) dst_crs);
  if negb (is_valid dst_crs) then raise CRSError
  else
    let '(dst_transform, dst_width, dst_height) :=
      calculate_default_transform E (crs self) dst_crs (width self)
                                  (height self) (bounds self) in
    do new_raster <- lift (np.empty [1; dst_height; dst_width]);
    do resampling <- lift (Resampling_getattr interpolation);
    do new_raster <- warp (_raster self) new_raster (transform self)
                          (crs self) dst_transform dst_crs resampling;
    lift (__init__ (name self) new_raster (ArgCRS dst_crs)
                   (ArgAffine dst_transform) (nodata self)).

Definition reproject_to_utm (self : t) (interpolation : string) : M t :=
  let dst_crs := get_utm_zone E (crs self) (transform self)
                              (height self, width self) in
  reproject self (ArgCRS dst_crs) interpolation.

(** [dst_res] is a pair ([dst_res[0]], [dst_res[1]]), [dst_shape] a triple
    ([dst_shape[0]], [dst_shape[1]], [dst_shape[2]]); [None] is the
    default of both. *)
Definition resample (self : t) (dst_res : option (Q * Q))
    (dst_shape : option (Z * Z * Z)) (interpolation : string) : M t :=
  let transform' :=
    match dst_res with
    | None => transform self
    | Some dr => mkAffine (snd dr) (aff_b (transform self))
                          (aff_c (transform self)) (aff_d (transform self))
                          (- fst dr)%Q (aff_f (transform self))
    end in
  do target <- lift
    match dst_res, dst_shape with
    | Some dr, None =>
        try th <- py_div (inject_Z (height self) * fst (res self))%Q (fst dr);
        try tw <- py_div (inject_Z (width self) * snd (res self))%Q (snd dr);
        Ok (py_int th, py_int tw)
    | _, Some ds => Ok (snd (fst ds), snd ds)
    | None, None => Ok (height self, width self)
    end;
  let '(target_height, target_width) := target in
  do new_raster <- lift (np.empty [1; target_height; target_width]);
  do resampling <- lift (Resampling_getattr interpolation);
  do new_raster <- warp (_raster self) new_raster (transform self)
                        (crs self) transform' (crs self) resampling;
  lift (__init__ (_name self) new_raster (ArgCRS (crs self))
                 (ArgAffine transform') (nodata self)).

(** [generate_samples(width, height)]; the arguments are named
    [tile_width] and [tile_height] here, next to the properties [width] and
    [height] of [self]. *)
Definition generate_samples (self : t) (tile_width tile_height : Z)
    : generated t :=
  match tile_origins (width self) (height self) tile_width tile_height with
  | Raise err => ([], Some err)
  | Ok origins =>
      yield_each (fun '(x, y) => sample self y x tile_height tile_width)
                 origins
  end.

End WithExternals.
End BandSample.

(** ** Band *)

Module Band.

Record t : Type := mk {
  _band : reader;
  _tmp_file : bool
}.

Section WithExternals.
Context (E : Externals).

(** [Band(fp)] *)
Definition __init__ (fp : string) : M t :=
  do band <- rasterio_open fp;
  ret {| _band := band; _tmp_file := false |}.

Definition __del__ (self : t) : M unit :=
  let fp := rd_name (_band self) in
  do_ emit (EvClose fp);
  if _tmp_file self then os_remove fp else ret tt.

Definition meta (self : t) : metadata := ds_meta (rd_ds (_band self)).
Definition crs (self : t) : CRS := m_crs (meta self).
Definition transform (self : t) : Affine := m_transform (meta self).
Definition nodata (self : t) : option Q := m_nodata (meta self).
Definition res (self : t) : Q * Q := rd_res (_band self).
Definition width (self : t) : Z := m_width (meta self).
Definition height (self : t) : Z := m_height (meta self).
Definition count (self : t) : Z := m_count (meta self).
Definition shape (self : t) : Z * Z := (height self, width self).
Definition name (self : t) : string :=
  before_dot (basename (rd_name (_band self))).
Definition bounds (self : t) : BoundingBox := rd_bounds (_band self).
Definition dtype (self : t) : string := m_dtype (meta self).

Definition same (self other : t) : bool :=
  let res := true in
  let res := res && CRS_eqb (crs self) (crs other) in
  let res := res && Affine_eqb (transform self) (transform other) in
  let res := res && (height self =? height other) in
  let res := res && (width self =? width other) in
  res.

Definition sample (self : t) (y x height width : Z) : result BandSample.t :=
  let coord_x := (aff_c (transform self) + inject_Z x * aff_a (transform self))%Q in
  let coord_y := (aff_f (transform self) + inject_Z y * aff_e (transform self))%Q in
  let dst_crs := crs self in
  let dst_name := basename (name self) in
  let dst_nodata := match nodata self with Some v => v | None => 0%Q end in
  let dst_transform :=
    mkAffine (aff_a (transform self)) (aff_b (transform self)) coord_x
             (aff_d (transform self)) (aff_e (transform self)) coord_y in
  let dst_raster :=
    read_boundless (_band self) y (y + height) x (x + width) dst_nodata in
  BandSample.__init__ E dst_name dst_raster (ArgCRS dst_crs)
                      (ArgAffine dst_transform) dst_nodata.

Definition numpy (self : t) : result np.ndarray :=
  try s <- sample self 0 0 (height self) (width self);
  Ok (BandSample.numpy s).

(** [random_name()]: the next name of the generator. *)
Definition draw_name : M string :=
  fun w => (Ok (random_name E (names_drawn w)),
            {| fs := fs w; names_drawn := S (names_drawn w);
               trace := trace w |}).

(** Band 1 of an open dataset, as the warp engine reads it. *)
Definition band1 (rd : reader) : np.ndarray :=
  let mt := ds_meta (rd_ds rd) in
  {| np.shape := [Z.to_nat (m_height mt); Z.to_nat (m_width mt)];
     np.buf := firstn (Z.to_nat (m_height mt * m_width mt))
                      (ds_pixels (rd_ds rd)) |}.

(** The body shared by [resample] and [reproject]:
    [with rasterio.open(fp, 'w', **kwargs) as dst: reproject(...)].
    The codec creates no dataset whose width or height is not positive.
    The file exists from the moment it is opened for writing; the warp
    fills its band 1; the handle is closed when the block is left. *)
Definition write_warped (self : t) (fp : string) (kwargs : metadata)
    (dst_transform : Affine) (dst_crs : CRS) (interpolation : string)
    : M unit :=
  if (0 <? m_width kwargs) && (0 <? m_height kwargs) then
    do_ emit (EvCreate fp);
    do_ write_file fp (mkDataset kwargs []);
    closing fp
      (do resampling <- lift (Resampling_getattr interpolation);
       do_ emit EvWarp;
       write_file fp
         (mkDataset kwargs
            (warp_kernel E (band1 (_band self)) (transform self) (crs self)
                         dst_transform dst_crs resampling
                         [Z.to_nat (m_height kwargs);
                          Z.to_nat (m_width kwargs)])))
  else raise CodecError.

(** [kwargs = self.meta.copy(); kwargs.update({...})] *)
Definition update_meta (mt : metadata) (crs' : CRS) (transform' : Affine)
    (width' height' : Z) : metadata :=
  {| m_driver := m_driver mt; m_dtype := m_dtype mt; m_nodata := m_nodata mt;
     m_width := width'; m_height := height'; m_count := m_count mt;
     m_crs := crs'; m_transform := transform' |}.

(** [fp] if given, else a fresh path under [TMP_DIR]. *)
Definition destination (self : t) (fp : option string) (kind : string)
    : M string :=
  match fp with
  | Some p => ret p
  | None =>
      do directory <- draw_name;
      ret (TMP_DIR ++ "/" ++ kind ++ "/" ++ directory ++ "/" ++ name self
           ++ ".tif")%string
  end.

Definition resample (self : t) (dst_res : Q * Q) (fp : option string)
    (interpolation : string) : M t :=
  let tmp_file := match fp with Some _ => false | None => true end in
  do fp <- destination self fp "resampled";
  do_ os_makedirs (dirname fp);
  let transform' :=
    mkAffine (fst dst_res) (aff_b (transform self)) (aff_c (transform self))
             (aff_d (transform self)) (- snd dst_res)%Q
             (aff_f (transform self)) in
  do width' <- lift (try ratio <- py_div (fst dst_res) (fst (res self));
                     try q <- py_div (inject_Z (width self)) ratio;
                     Ok (py_round q));
  do height' <- lift (try ratio <- py_div (snd dst_res) (snd (res self));
                      try q <- py_div (inject_Z (height self)) ratio;
                      Ok (py_round q));
  let kwargs := update_meta (meta self) (crs self) transform' width' height' in
  do_ write_warped self fp kwargs transform' (crs self) interpolation;
  do band <- __init__ fp;
  ret {| _band := _band band; _tmp_file := tmp_file |}.

Definition reproject (self : t) (dst_crs : crs_arg) (fp : option string)
    (interpolation : string) : M t :=
  do dst_crs <- lift (BandSample.resolve_crs E (crs self) (transform self)
                                             (height self, width self) dst_crs);
  if negb (is_valid dst_crs) then raise CRSError
  else
    let tmp_file := match fp with Some _ => false | None => true end in
    do fp <- destination self fp ("reprojected_" ++ crs_def dst_crs)%string;
    do_ os_makedirs (dirname fp);
    let '(transform', width', height') :=
      calculate_default_transform E (crs self) dst_crs (width self)
                                  (height self) (bounds self) in
    let kwargs := update_meta (meta self) dst_crs transform' width' height' in
    do_ write_warped self fp kwargs transform' dst_crs interpolation;
    do band <- __init__ fp;
    ret {| _band := _band band; _tmp_file := tmp_file |}.

Definition reproject_to_utm (self : t) (fp : option string)
    (interpolation : string) : M t :=
  let dst_crs := get_utm_zone E (crs self) (transform self)
                              (height self, width self) in
  reproject self (ArgCRS dst_crs) fp interpolation.

(** [generate_samples(width, height)]; the arguments are named
    [tile_width] and [tile_height] here, next to the properties [width] and
    [height] of [self]. *)
Definition generate_samples (self : t) (tile_width tile_height : Z)
    : generated BandSample.t :=
  match tile_origins (width self) (height self) tile_width tile_height with
  | Raise err => ([], Some err)
  | Ok origins =>
      yield_each (fun '(x, y) => sample self y x tile_height tile_width)
                 origins
  end.

End WithExternals.
End Band.

(** [BandSample.from_file(fp)] *)
Definition BandSample_from_file (E : Externals) (fp : string)
    : M BandSample.t :=
  do band <- Band.__init__ fp;
  lift (Band.sample E band 0 0 (Band.width band) (Band.height band)).

(** ** Sample data *)

Module Demo.

(** Collaborators for the examples: a parser that rejects the empty string
    and marks "bad" invalid, a fixed UTM zone, an identity default transform
    and a warp that writes zeros. *)
Definition externals : Externals :=
  {| from_user_input := fun s =>
       if String.eqb s EmptyString then Raise CRSError
       else Ok (mkCRS s (negb (String.eqb s "bad")));
     get_utm_zone := fun _ _ _ => mkCRS "EPSG:32637" true;
     calculate_default_transform := fun _ _ w h bb =>
       (mkAffine 1 0 (bb_left bb) 0 (- (1)) (bb_top bb), w, h);
     warp_kernel := fun _ _ _ _ _ _ dims =>
       repeat 0%Q (fold_right Nat.mul 1%nat dims);
     random_name := fun n => String (ascii_of_nat (65 + n)) EmptyString |}.

Definition web_mercator : CRS := mkCRS "EPSG:3857" true.
Definition wgs84 : CRS := mkCRS "EPSG:4326" true.
Definition broken_crs : CRS := mkCRS "bad" false.
Definition north_up : Affine := mkAffine 1 0 0 0 (- (1)) 0.

(** A 100 by 100 single-band file whose pixel (row, col) holds
    100 * row + col. *)
Definition image : dataset :=
  mkDataset
    (mkMeta "GTiff" "uint16" None 100 100 1 web_mercator north_up)
    (map (fun n => inject_Z (Z.of_nat n)) (seq 0 (100 * 100))).

Definition image_path : string := "/data/scene.tif".

Definition band : Band.t := Band.mk (mkReader image_path image) false.

Definition disk : world :=
  {| fs := {[ image_path := image ]}; names_drawn := 0; trace := [] |}.

(** A 4 by 3 sample (4 rows, 3 columns) whose cell (i, j) holds 10 * i + j. *)
Definition patch : BandSample.t :=
  BandSample.mk "patch"
    {| np.shape := [4%nat; 3%nat];
       np.buf := np.tabulate2 4 3 (fun i j => inject_Z (Z.of_nat (10 * i + j))) |}
    0 north_up web_mercator.

(** The same grid with pixels twice as tall as wide, in another CRS. *)
Definition tall_patch : BandSample.t :=
  BandSample.mk "tall" (BandSample._raster patch) 0
                (mkAffine 1 0 5 0 (- (2)) 7) wgs84.

End Demo.

(** ** Vocabulary of the statements *)

(** The fill value of [Band.sample]: nodata, or 0 when nodata is unset. *)
Definition fill_of (b : Band.t) : Q :=
  match Band.nodata b with Some v => v | None => 0%Q end.

(** The transform of a window whose origin is the pixel (x, y). *)
Definition windowed_transform (tr : Affine) (x y : Z) : Affine :=
  mkAffine (aff_a tr) (aff_b tr) (aff_c tr + inject_Z x * aff_a tr)%Q
           (aff_d tr) (aff_e tr) (aff_f tr + inject_Z y * aff_e tr)%Q.

(** A single-band file with a valid CRS: what [Band.sample] needs to
    build its [BandSample]. *)
Definition readable (b : Band.t) : Prop :=
  Band.count b = 1 /\ is_valid (Band.crs b) = true.

(** ceil(n / d) *)
Definition ceil_div (n d : Z) : Z := Qceiling (inject_Z n / inject_Z d).

(** The window of size [w] by [h] at origin [o] = (x, y) contains the
    pixel (px, py). *)
Definition window_contains (w h : Z) (o : Z * Z) (px py : Z) : Prop :=
  fst o <= px < fst o + w /\ snd o <= py < snd o + h.

(** Origin [o1] comes before [o2] when x advances, or x stays and y
    advances. *)
Definition x_major_lt (o1 o2 : Z * Z) : Prop :=
  fst o1 < fst o2 \/ (fst o1 = fst o2 /\ snd o1 < snd o2).

(** What C3 says of one drained generator [gen] over a raster of [W] by [H]
    pixels tiled by [w] by [h], whose items are made by [sample_at y x]:
    it ends without an exception; its items are the samples of a list of
    window origins, one for one and in order; there are
    ceil(W/w) * ceil(H/h) of them; the origins are listed x-major, starting
    from (0, 0); each origin lies in the raster; each pixel of the raster is
    in the window of one origin, and no point is in the windows of two. *)
Definition tiles {A : Type} (W H w h : Z) (sample_at : Z -> Z -> result A)
    (gen : generated A) : Prop :=
  exists (origins : list (Z * Z)) (samples : list A),
    gen = (samples, None) /\
    Forall2 (fun o s => sample_at (snd o) (fst o) = Ok s) origins samples /\
    Z.of_nat (length samples) = ceil_div W w * ceil_div H h /\
    (forall (k1 k2 : nat) (o1 o2 : Z * Z),
        (k1 < k2)%nat ->
        nth_error origins k1 = Some o1 -> nth_error origins k2 = Some o2 ->
        x_major_lt o1 o2) /\
    (0 < W -> 0 < H -> nth_error origins 0 = Some (0, 0)) /\
    (forall o, In o origins -> 0 <= fst o < W /\ 0 <= snd o < H) /\
    (forall px py, 0 <= px < W -> 0 <= py < H ->
        exists o, In o origins /\ window_contains w h o px py) /\
    (forall px py o1 o2, In o1 origins -> In o2 origins ->
        window_contains w h o1 px py -> window_contains w h o2 px py ->
        o1 = o2).

(** The origins (i * w, j * h) for i below [nx] and j below [ny], all
    j for one i before the next i. *)
Definition tile_grid (nx ny : nat) (w h : Z) : list (Z * Z) :=
  flat_map (fun i => map (fun j => (Z.of_nat i * w, Z.of_nat j * h))
                         (seq 0 ny))
           (seq 0 nx).

(** Destroying [b] in the world [w] closes its handle and then removes its
    backing file. *)
Definition destroy_deletes (b : Band.t) (w : world) : Prop :=
  let fp := rd_name (Band._band b) in
  exists w', Band.__del__ b w = (Ok tt, w') /\
             fs w' = delete fp (fs w) /\ fs w' !! fp = None /\
             trace w' = trace w ++ [EvClose fp; EvRemove fp].

(** Destroying [b] in the world [w] closes its handle and leaves every
    file in place. *)
Definition destroy_keeps (b : Band.t) (w : world) : Prop :=
  let fp := rd_name (Band._band b) in
  exists w', Band.__del__ b w = (Ok tt, w') /\
             fs w' = fs w /\ trace w' = trace w ++ [EvClose fp].

(** The temporary flag a factory sets: true exactly when no destination
    path was given. *)
Definition flag_for (fp : option string) : bool :=
  match fp with Some _ => false | None => true end.

(** The CRS the [BandSample] constructor checks: the argument itself, or
    what [CRS.from_user_input] makes of it. *)
Definition crs_of_arg (E : Externals) (crs : crs_arg) : result CRS :=
  match crs with
  | ArgCRS x => Ok x
  | ArgStr s => from_user_input E s
  end.

(** The transform the [BandSample] constructor stores. *)
Definition affine_of_arg (transform : transform_arg) : result Affine :=
  match transform with
  | ArgAffine tr => Ok tr
  | ArgTuple l => Affine_of_tuple l
  end.

(** What a boundless read holds at (row, col) of band 1: the pixel of the
    file inside the raster extent, the fill value outside. *)
Definition boundless_pixel (rd : reader) (row col : Z) (fill : Q) : Q :=
  if (0 <=? row) && (row <? m_height (ds_meta (rd_ds rd)))
     && (0 <=? col) && (col <? m_width (ds_meta (rd_ds rd)))
  then ds_pixel (rd_ds rd) 0 row col else fill.

(** The files of [w'] are those of [w] except, perhaps, the one at
    [path]. *)
Definition fs_same_except (path : string) (w w' : world) : Prop :=
  forall q : string, q <> path -> fs w' !! q = fs w !! q.

(** More sample data: a file of 2 rows by 3 columns, nodata -1, whose pixel
    (row, col) holds 10 * row + col. *)
Module Strip.

Definition image : dataset :=
  mkDataset
    (mkMeta "GTiff" "int16" (Some (- (1))%Q) 3 2 1 Demo.web_mercator
            (mkAffine (1 # 2) 0 10 0 (- (1 # 2)) 20))
    [0; 1; 2; 10; 11; 12]%Q.

Definition path : string := "/data/strip.tif".

Definition disk : world :=
  {| fs := {[ path := image ]}; names_drawn := 0; trace := [] |}.

Definition band : Band.t := Band.mk (mkReader path image) false.

(** A band on a temporary file, as [resample] would have returned it. *)
Definition scratch : Band.t := Band.mk (mkReader path image) true.

End Strip.

(** The destination [fp], when one is given, names a file inside a
    directory: neither [os.path.dirname(fp)] nor [os.path.basename(fp)] is
    empty. A temporary path always does. *)
Definition has_directory (fp : option string) : Prop :=
  forall p, fp = Some p ->
            dirname p <> EmptyString /\ basename p <> EmptyString.

(** The quotient [q] stays clear of a rounding tie, m + 1/2, by more than
    the error two divisions in double precision can make (a relative
    2^-50): there [round(q)] is the same over the rationals and over the
    doubles of the source. *)
Definition clear_of_ties (q : Q) : Prop :=
  (Qabs q * (1 # 1125899906842624)
   < Qabs (q - (inject_Z (Qfloor q) + (1 # 2))))%Q.

(** The path a factory writes at: [fp] when it is given, else the
    temporary path made of the next name of the generator. *)
Definition target_path (E : Externals) (b : Band.t) (fp : option string)
    (kind : string) (w : world) : string :=
  match fp with
  | Some p => p
  | None => (TMP_DIR ++ "/" ++ kind ++ "/" ++ random_name E (names_drawn w)
             ++ "/" ++ Band.name b ++ ".tif")%string
  end.

(** A character an identifier can hold: a letter, a digit, the underscore,
    or a byte of a character outside ASCII. *)
Definition identifier_char (c : ascii) : bool :=
  let n := nat_of_ascii c in
  ((48 <=? n) && (n <=? 57) || (65 <=? n) && (n <=? 90)
   || (97 <=? n) && (n <=? 122) || (n =? 95) || (128 <=? n))%nat.

(** A name that holds a character no identifier has, such as a hyphen or
    a space: no attribute of a class is called so. *)
Definition not_identifier (name : string) : bool :=
  negb (forallb identifier_char (list_ascii_of_string name)).

(** * Properties *)

(** ** The numeric and path primitives on examples *)

Example py_round_ties_to_even :
  map py_round [5 # 2; 7 # 2; -5 # 2; 12 # 5; -7 # 3]%Q = [2; 4; -2; 2; -2].
Proof. reflexivity. Qed.

Example py_int_truncates :
  map py_int [5 # 2; -5 # 2; 39 # 10; -39 # 10]%Q = [2; -2; 3; -3].
Proof. reflexivity. Qed.

Example py_range_steps :
  py_range 0 10 4 = Ok [0; 4; 8] /\ py_range 0 8 4 = Ok [0; 4] /\
  py_range 0 0 4 = Ok [] /\ py_range 0 10 0 = Raise ValueError.
Proof. repeat split. Qed.

Example slice_bounds_clamp_and_wrap :
  np.slice_bounds 10 3 7 = (3%nat, 4%nat) /\
  np.slice_bounds 10 8 13 = (8%nat, 2%nat) /\
  np.slice_bounds 10 12 15 = (10%nat, 0%nat) /\
  np.slice_bounds 10 (-3) (-1) = (7%nat, 2%nat) /\
  np.slice_bounds 10 (-3) 2 = (7%nat, 0%nat).
Proof. repeat split. Qed.

Example paths :
  dirname "/tmp/raster/resampled/AB/scene.tif" = "/tmp/raster/resampled/AB"%string /\
  dirname "out.tif" = EmptyString /\
  basename "/data/scene.tif" = "scene.tif"%string /\
  before_dot "scene.v2.tif" = "scene"%string.
Proof. repeat split. Qed.

(** ** Arithmetic helpers *)

Lemma inject_Z_pos (n : Z) : 0 < n -> (0 < inject_Z n)%Q.
Proof.
  intros Hn. change 0%Q with (inject_Z 0). rewrite <- Zlt_Qlt. exact Hn.
Qed.

Lemma Qeq_bool_refl (q : Q) : Qeq_bool q q = true.
Proof. apply Qeq_bool_iff. reflexivity. Qed.

Lemma Affine_eqb_refl (t : Affine) : Affine_eqb t t = true.
Proof. unfold Affine_eqb. now rewrite !Qeq_bool_refl. Qed.

(** ** Bounds of a sample *)

(** C6. [BandSample.bounds] is the rectangle (left, bottom, right, top)
    with left = transform.c, top = transform.f,
    right = left + transform.a * width and
    bottom = top + transform.e * height; hence, for a positive width,
    left < right when transform.a > 0, and for a positive height,
    bottom < top when transform.e < 0. *)
Theorem bounds_rectangle (s : BandSample.t) :
  let bb := BandSample.bounds s in
  let tr := BandSample.transform s in
  bb_left bb = aff_c tr /\
  bb_top bb = aff_f tr /\
  bb_right bb = (bb_left bb + aff_a tr * inject_Z (BandSample.width s))%Q /\
  bb_bottom bb = (bb_top bb + aff_e tr * inject_Z (BandSample.height s))%Q /\
  (0 < BandSample.height s -> (aff_e tr < 0)%Q -> (bb_bottom bb < bb_top bb)%Q) /\
  (0 < BandSample.width s -> (0 < aff_a tr)%Q -> (bb_left bb < bb_right bb)%Q).
Proof.
  cbn. repeat split.
  - intros Hh He. apply inject_Z_pos in Hh.
    set (h := inject_Z (BandSample.height s)) in *.
    set (e := aff_e (BandSample.transform s)) in *. nra.
  - intros Hw Ha. apply inject_Z_pos in Hw.
    set (w := inject_Z (BandSample.width s)) in *.
    set (a := aff_a (BandSample.transform s)) in *. nra.
Qed.

Lemma bounds_rectangle_witness :
  (bb_bottom (BandSample.bounds Demo.patch) < bb_top (BandSample.bounds Demo.patch))%Q /\
  (bb_left (BandSample.bounds Demo.patch) < bb_right (BandSample.bounds Demo.patch))%Q.
Proof.
  destruct (bounds_rectangle Demo.patch) as (_ & _ & _ & _ & Hv & Hh).
  split; [apply Hv | apply Hh]; reflexivity.
Defined.

(** ** Structural comparison of samples *)

(** C7, as the code has it. [s.same(other)] compares the CRS of [s] with
    the CRS of [other], and transform, height and width of [s] with
    themselves: it returns true exactly when the two CRS are equal,
    whatever the transform, height and width of [other]. *)
Theorem same_compares_crs_only (s other : BandSample.t) :
  BandSample.same s other
  = CRS_eqb (BandSample.crs s) (BandSample.crs other).
Proof.
  unfold BandSample.same.
  rewrite Affine_eqb_refl, !Z.eqb_refl, !andb_true_r. reflexivity.
Qed.

(** C7, as stated, fails: two samples with different CRS are not the
    same. *)
Lemma same_not_always_true :
  ~ (forall s other : BandSample.t, BandSample.same s other = true).
Proof.
  intros H. specialize (H Demo.patch Demo.tall_patch). discriminate H.
Qed.

(** ** Buffers *)

Lemma nth_map_seq {A : Type} (g : nat -> A) (n j : nat) (d : A) :
  (j < n)%nat -> nth j (map g (seq 0 n)) d = g j.
Proof.
  intros Hj. rewrite (nth_indep _ d (g 0%nat)) by now rewrite length_map, length_seq.
  rewrite map_nth, seq_nth by exact Hj. reflexivity.
Qed.

Lemma nth_tabulate_from {A : Type} (nc : nat) (g : nat -> nat -> A) (d : A) :
  forall (nr s i j : nat), (i < nr)%nat -> (j < nc)%nat ->
    nth (i * nc + j)
        (flat_map (fun r => map (g r) (seq 0 nc)) (seq s nr)) d
    = g (s + i)%nat j.
Proof.
  induction nr as [|nr IH]; intros s i j Hi Hj; [lia|].
  cbn [seq flat_map]. destruct i as [|i].
  - rewrite app_nth1 by (rewrite length_map, length_seq; lia).
    cbn [Nat.mul Nat.add]. rewrite nth_map_seq by exact Hj.
    f_equal. lia.
  - rewrite app_nth2 by (rewrite length_map, length_seq; lia).
    rewrite length_map, length_seq.
    replace (S i * nc + j - nc)%nat with (i * nc + j)%nat by lia.
    rewrite IH by lia. f_equal. lia.
Qed.

Lemma length_tabulate_from {A : Type} (nc : nat) (g : nat -> nat -> A) :
  forall (nr s : nat),
    length (flat_map (fun r => map (g r) (seq 0 nc)) (seq s nr))
    = (nr * nc)%nat.
Proof.
  induction nr as [|nr IH]; intros s; [reflexivity|].
  cbn [seq flat_map]. rewrite length_app, length_map, length_seq, IH. lia.
Qed.

Lemma nth_tabulate2 (nr nc : nat) (g : nat -> nat -> Q) (i j : nat) (d : Q) :
  (i < nr)%nat -> (j < nc)%nat ->
  nth (i * nc + j) (np.tabulate2 nr nc g) d = g i j.
Proof.
  intros Hi Hj. unfold np.tabulate2. now rewrite nth_tabulate_from.
Qed.

Lemma cell2_tabulate2 (nr nc : nat) (g : nat -> nat -> Q) (i j : nat) :
  (i < nr)%nat -> (j < nc)%nat ->
  np.cell2 {| np.shape := [nr; nc]; np.buf := np.tabulate2 nr nc g |} i j
  = g i j.
Proof. intros Hi Hj. unfold np.cell2. cbn. now apply nth_tabulate2. Qed.

(** ** Windowed reads of a band *)

Section WindowedReads.
Context (E : Externals).

Lemma Band_sample_ok (b : Band.t) (y x h w : Z) :
  readable b ->
  Band.sample E b y x h w
  = Ok {| BandSample._name := basename (Band.name b);
          BandSample._raster :=
            {| np.shape := [Z.to_nat (y + h - y); Z.to_nat (x + w - x)];
               np.buf := np.buf (read_boundless (Band._band b) y (y + h)
                                                x (x + w) (fill_of b)) |};
          BandSample._nodata := fill_of b;
          BandSample._transform := windowed_transform (Band.transform b) x y;
          BandSample._crs := Band.crs b |}.
Proof.
  intros [Hcount Hvalid].
  unfold Band.sample, BandSample.__init__, band_shape_guard.
  unfold read_boundless at 1. cbn [np.shape].
  unfold Band.count, Band.meta in Hcount. rewrite Hcount.
  change (Z.to_nat 1) with 1%nat. cbn [rbind].
  rewrite Hvalid. reflexivity.
Qed.

(** C1. On a 100 by 100 band with transform (1, 0, 0, 0, -1, 0),
    [sample(10, 10, 20, 20)] returns a sample whose transform has c = 10 and
    f = -10, the other coefficients unchanged, and whose width and height
    are both 20. *)
Theorem sample_scenario (b : Band.t) :
  Band.width b = 100 -> Band.height b = 100 ->
  Band.transform b = mkAffine 1 0 0 0 (- (1)) 0 ->
  readable b ->
  exists s,
    Band.sample E b 10 10 20 20 = Ok s /\
    BandSample.transform s = mkAffine 1 0 10 0 (- (1)) (- (10)) /\
    BandSample.width s = 20 /\
    BandSample.height s = 20.
Proof.
  intros _ _ Htr Hb. eexists. split; [apply Band_sample_ok, Hb|].
  unfold BandSample.transform, BandSample.width, BandSample.height.
  cbn [BandSample._transform BandSample._raster]. rewrite Htr.
  repeat split.
Qed.

End WindowedReads.

(** ** Boundless reads against truncating slices *)

Section Windows.
Context (E : Externals).


Lemma guard_2d (h w : nat) (cells : list Q) :
  band_shape_guard {| np.shape := [h; w]; np.buf := cells |}
  = Ok {| np.shape := [h; w]; np.buf := cells |}.
Proof. unfold band_shape_guard. cbn. destruct h as [|[|h]]; reflexivity. Qed.

Lemma BandSample_sample_ok (s : BandSample.t) (y x h w : Z) :
  is_valid (BandSample.crs s) = true ->
  BandSample.sample E s y x h w
  = Ok {| BandSample._name := BandSample.name s;
          BandSample._raster :=
            np.slice2 (BandSample._raster s) y (y + h) x (x + w);
          BandSample._nodata := BandSample.nodata s;
          BandSample._transform :=
            windowed_transform (BandSample.transform s) x y;
          BandSample._crs := BandSample.crs s |}.
Proof.
  intros Hvalid. unfold BandSample.sample, BandSample.__init__.
  unfold np.slice2, np.slice_bounds. cbv beta iota zeta.
  rewrite guard_2d. cbn [rbind]. rewrite Hvalid. reflexivity.
Qed.

Lemma slice_bounds_nonneg (n start len : Z) :
  0 <= n -> 0 <= start -> 0 < len ->
  np.slice_bounds n start (start + len)
  = (Z.to_nat (Z.min start n), Z.to_nat (Z.min len (Z.max 0 (n - start)))).
Proof.
  intros Hn Hs Hl. unfold np.slice_bounds, np.slice_index.
  destruct (Z.ltb_spec start 0); [lia|].
  destruct (Z.ltb_spec (start + len) 0); [lia|].
  f_equal. f_equal. lia.
Qed.


End Windows.



Lemma sample_scenario_witness :
  exists s,
    Band.sample Demo.externals Demo.band 10 10 20 20 = Ok s /\
    BandSample.transform s = mkAffine 1 0 10 0 (- (1)) (- (10)) /\
    BandSample.width s = 20 /\
    BandSample.height s = 20.
Proof.
  apply (sample_scenario Demo.externals Demo.band);
    [reflexivity | reflexivity | reflexivity | split; reflexivity].
Defined.

(** ** The tiling grid *)

Lemma Qceiling_div (n d : Z) : 0 < d -> ceil_div n d = - ((- n) / d).
Proof.
  intros Hd. destruct d as [|p|p]; try lia.
  unfold ceil_div, Qceiling, Qfloor, Qdiv, Qinv, Qmult, Qopp, inject_Z.
  cbn [Qnum Qden]. rewrite Z.mul_1_r, Pos.mul_1_l. reflexivity.
Qed.

Lemma range_len_ceil (stop step : Z) :
  0 < step -> 0 <= stop -> range_len 0 stop step = ceil_div stop step.
Proof.
  intros Hstep Hstop. rewrite Qceiling_div by exact Hstep. unfold range_len.
  destruct (Z.ltb_spec 0 step); [|lia].
  destruct (Z.ltb_spec 0 stop).
  - pose proof (Z.div_mod (stop - 0 - 1) step ltac:(lia)).
    pose proof (Z.mod_pos_bound (stop - 0 - 1) step Hstep).
    pose proof (Z.div_mod (- stop) step ltac:(lia)).
    pose proof (Z.mod_pos_bound (- stop) step Hstep).
    nia.
  - replace stop with 0 by lia. reflexivity.
Qed.

Lemma ceil_div_nonneg (n d : Z) : 0 < d -> 0 <= n -> 0 <= ceil_div n d.
Proof.
  intros Hd Hn. rewrite Qceiling_div by exact Hd.
  pose proof (Z.div_mod (- n) d ltac:(lia)).
  pose proof (Z.mod_pos_bound (- n) d Hd). nia.
Qed.

(** [n] is below ceil(n'/d) * d exactly when [n / d] is below ceil(n'/d). *)
Lemma ceil_div_covers (n d px : Z) :
  0 < d -> 0 <= px < n -> px / d < ceil_div n d.
Proof.
  intros Hd Hpx. rewrite Qceiling_div by exact Hd.
  pose proof (Z.div_mod (- n) d ltac:(lia)).
  pose proof (Z.mod_pos_bound (- n) d Hd).
  pose proof (Z.div_mod px d ltac:(lia)).
  pose proof (Z.mod_pos_bound px d Hd). nia.
Qed.

Lemma ceil_div_within (n d i : Z) :
  0 < d -> 0 <= n -> 0 <= i < ceil_div n d -> i * d < n.
Proof.
  intros Hd Hn Hi. rewrite Qceiling_div in Hi by exact Hd.
  pose proof (Z.div_mod (- n) d ltac:(lia)).
  pose proof (Z.mod_pos_bound (- n) d Hd). nia.
Qed.

Lemma flat_map_map {A B C : Type} (f : A -> B) (g : B -> list C) (l : list A) :
  flat_map g (map f l) = flat_map (fun x => g (f x)) l.
Proof. induction l as [|x l IH]; cbn; [reflexivity | now rewrite IH]. Qed.

Lemma py_range_from_zero (stop step : Z) :
  0 < step -> 0 <= stop ->
  py_range 0 stop step
  = Ok (map (fun i => Z.of_nat i * step)
            (seq 0 (Z.to_nat (ceil_div stop step)))).
Proof.
  intros Hstep Hstop. unfold py_range.
  destruct (Z.eqb_spec step 0); [lia|].
  rewrite range_len_ceil by assumption. reflexivity.
Qed.

Lemma tile_origins_grid (W H w h : Z) :
  0 < w -> 0 < h -> 0 <= W -> 0 <= H ->
  tile_origins W H w h
  = Ok (tile_grid (Z.to_nat (ceil_div W w)) (Z.to_nat (ceil_div H h)) w h).
Proof.
  intros Hw Hh HW HH. unfold tile_origins.
  rewrite py_range_from_zero by assumption. cbn [rbind].
  destruct (Z.to_nat (ceil_div W w)) as [|nx] eqn:Hnx; [reflexivity|].
  rewrite <- Hnx.
  destruct (map _ (seq 0 (Z.to_nat (ceil_div W w)))) eqn:Hxs.
  { rewrite Hnx in Hxs. discriminate Hxs. }
  rewrite <- Hxs. rewrite py_range_from_zero by assumption. cbn [rbind].
  unfold tile_grid. rewrite flat_map_map. f_equal.
  apply flat_map_ext. intros i. rewrite map_map. reflexivity.
Qed.

Lemma length_tile_grid (nx ny : nat) (w h : Z) :
  length (tile_grid nx ny w h) = (nx * ny)%nat.
Proof. apply length_tabulate_from. Qed.

Lemma in_tile_grid (nx ny : nat) (w h : Z) (o : Z * Z) :
  In o (tile_grid nx ny w h) <->
  exists i j : nat, (i < nx)%nat /\ (j < ny)%nat /\
                    o = (Z.of_nat i * w, Z.of_nat j * h).
Proof.
  unfold tile_grid. rewrite in_flat_map. split.
  - intros (i & Hi & Ho). apply in_map_iff in Ho as (j & Ho & Hj).
    apply in_seq in Hi, Hj. exists i, j. repeat split; (lia || now symmetry).
  - intros (i & j & Hi & Hj & ->). exists i. split; [apply in_seq; lia|].
    apply in_map_iff. exists j. split; [reflexivity | apply in_seq; lia].
Qed.

Lemma nth_error_tile_grid (nx ny : nat) (w h : Z) (k : nat) :
  (k < nx * ny)%nat ->
  nth_error (tile_grid nx ny w h) k
  = Some (Z.of_nat (k / ny) * w, Z.of_nat (k mod ny) * h).
Proof.
  intros Hk. assert (Hny : (ny <> 0)%nat) by lia.
  rewrite (nth_error_nth' _ (0, 0)) by (rewrite length_tile_grid; exact Hk).
  f_equal. unfold tile_grid.
  rewrite (Nat.div_mod_eq k ny) at 1.
  rewrite (Nat.mul_comm ny).
  rewrite (nth_tabulate_from ny
             (fun i j => (Z.of_nat i * w, Z.of_nat j * h)) (0, 0) nx 0).
  - reflexivity.
  - apply Nat.Div0.div_lt_upper_bound. lia.
  - apply Nat.mod_upper_bound. exact Hny.
Qed.

Lemma yield_each_ok {A B : Type} (body : A -> result B) (l : list A) :
  (forall x, In x l -> exists y, body x = Ok y) ->
  exists ys, yield_each body l = (ys, None) /\
             Forall2 (fun x y => body x = Ok y) l ys.
Proof.
  induction l as [|x l IH]; intros Hall.
  - exists []. split; [reflexivity | constructor].
  - destruct (Hall x (or_introl eq_refl)) as [y Hy].
    destruct IH as (ys & Hys & Hfa); [intros x' Hx'; apply Hall; now right|].
    exists (y :: ys). cbn [yield_each]. rewrite Hy, Hys.
    split; [reflexivity | now constructor].
Qed.

Lemma Forall2_length_eq {A B : Type} (R : A -> B -> Prop) (l : list A)
    (l' : list B) :
  Forall2 R l l' -> length l = length l'.
Proof. induction 1; cbn; congruence. Qed.

(** The grid of [generate_samples] has the shape C3 describes. *)
Lemma tile_grid_tiles {A : Type} (W H w h : Z)
    (sample_at : Z -> Z -> result A) (gen : generated A) :
  0 < w -> 0 < h -> 0 <= W -> 0 <= H ->
  (forall y x, exists s, sample_at y x = Ok s) ->
  gen = yield_each (fun '(x, y) => sample_at y x)
          (tile_grid (Z.to_nat (ceil_div W w)) (Z.to_nat (ceil_div H h)) w h) ->
  tiles W H w h sample_at gen.
Proof.
  intros Hw Hh HW HH Hsample ->.
  pose proof (ceil_div_nonneg W w Hw HW) as Hnx.
  pose proof (ceil_div_nonneg H h Hh HH) as Hny.
  set (nx := Z.to_nat (ceil_div W w)) in *.
  set (ny := Z.to_nat (ceil_div H h)) in *.
  destruct (yield_each_ok (fun '(x, y) => sample_at y x) (tile_grid nx ny w h))
    as (samples & Hgen & Hfa).
  { intros [x y] _. apply Hsample. }
  exists (tile_grid nx ny w h), samples.
  split; [exact Hgen|]. split.
  { clear Hgen. induction Hfa as [|[x y] s l l' Hxs _ IH];
      constructor; [exact Hxs | exact IH]. }
  split.
  { rewrite <- (Forall2_length_eq _ _ _ Hfa), length_tile_grid. lia. }
  split.
  { intros k1 k2 o1 o2 Hk Ho1 Ho2.
    assert (Hk2 : (k2 < nx * ny)%nat).
    { rewrite <- (length_tile_grid nx ny w h). apply nth_error_Some. congruence. }
    assert (Hnz : (ny <> 0)%nat) by lia.
    rewrite nth_error_tile_grid in Ho1 by lia.
    rewrite nth_error_tile_grid in Ho2 by lia.
    injection Ho1 as <-. injection Ho2 as <-. unfold x_major_lt. cbn [fst snd].
    pose proof (Nat.div_mod_eq k1 ny). pose proof (Nat.div_mod_eq k2 ny).
    pose proof (Nat.mod_upper_bound k1 ny Hnz).
    pose proof (Nat.mod_upper_bound k2 ny Hnz).
    destruct (Nat.eq_dec (k1 / ny)%nat (k2 / ny)%nat) as [Heq|Hne].
    - right. rewrite Heq. split; [reflexivity|]. nia.
    - left. assert ((k1 / ny < k2 / ny)%nat) by nia. nia. }
  split.
  { intros HW0 HH0. rewrite nth_error_tile_grid.
    - assert (Hnz : (ny <> 0)%nat).
      { pose proof (ceil_div_covers H h 0 Hh ltac:(lia)).
        rewrite Z.div_0_l in *; lia. }
      rewrite Nat.Div0.div_0_l, Nat.Div0.mod_0_l. reflexivity.
    - pose proof (ceil_div_covers W w 0 Hw ltac:(lia)).
      pose proof (ceil_div_covers H h 0 Hh ltac:(lia)).
      rewrite Z.div_0_l in *; try lia. }
  split.
  { intros o Ho. apply in_tile_grid in Ho as (i & j & Hi & Hj & ->).
    cbn [fst snd].
    pose proof (ceil_div_within W w (Z.of_nat i) Hw HW ltac:(lia)).
    pose proof (ceil_div_within H h (Z.of_nat j) Hh HH ltac:(lia)).
    nia. }
  split.
  { intros px py Hpx Hpy.
    pose proof (ceil_div_covers W w px Hw Hpx).
    pose proof (ceil_div_covers H h py Hh Hpy).
    pose proof (Z.div_mod px w ltac:(lia)).
    pose proof (Z.mod_pos_bound px w Hw).
    pose proof (Z.div_mod py h ltac:(lia)).
    pose proof (Z.mod_pos_bound py h Hh).
    assert (0 <= px / w) by (apply Z.div_pos; lia).
    assert (0 <= py / h) by (apply Z.div_pos; lia).
    exists (Z.of_nat (Z.to_nat (px / w)) * w, Z.of_nat (Z.to_nat (py / h)) * h).
    split.
    - apply in_tile_grid. exists (Z.to_nat (px / w)), (Z.to_nat (py / h)).
      repeat split; lia.
    - unfold window_contains. cbn [fst snd]. rewrite !Z2Nat.id by lia. nia. }
  intros px py o1 o2 Ho1 Ho2 [Hx1 Hy1] [Hx2 Hy2].
  apply in_tile_grid in Ho1 as (i1 & j1 & _ & _ & ->).
  apply in_tile_grid in Ho2 as (i2 & j2 & _ & _ & ->).
  cbn [fst snd] in *.
  assert (Z.of_nat i1 = Z.of_nat i2) by nia.
  assert (Z.of_nat j1 = Z.of_nat j2) by nia.
  congruence.
Qed.

(** C3. For a raster of W by H pixels and a positive tile size (w, h),
    [generate_samples(w, h)] of a [Band] and of a [BandSample] yields
    ceil(W/w) * ceil(H/h) samples, those of the windows at the origins
    (x, y) taken in x-major order (every y of one x before the next x)
    from (0, 0); each pixel of [0, W) x [0, H) lies in exactly one of the
    requested windows and no two windows overlap. The result depends on
    the object and the tile size alone, so a second call yields the same
    sequence from its beginning. *)
Theorem generate_samples_tiles (E : Externals) (w h : Z) :
  0 < w -> 0 < h ->
  (forall b : Band.t,
      readable b -> 0 <= Band.width b -> 0 <= Band.height b ->
      tiles (Band.width b) (Band.height b) w h
            (fun y x => Band.sample E b y x h w)
            (Band.generate_samples E b w h)) /\
  (forall s : BandSample.t,
      is_valid (BandSample.crs s) = true ->
      tiles (BandSample.width s) (BandSample.height s) w h
            (fun y x => BandSample.sample E s y x h w)
            (BandSample.generate_samples E s w h)).
Proof.
  intros Hw Hh. split.
  - intros b Hb HW HH. apply tile_grid_tiles; try assumption.
    + intros y x. eexists. apply Band_sample_ok, Hb.
    + unfold Band.generate_samples.
      now rewrite tile_origins_grid by assumption.
  - intros s Hvalid.
    assert (HW : 0 <= BandSample.width s)
      by (unfold BandSample.width, np.shape_at; lia).
    assert (HH : 0 <= BandSample.height s)
      by (unfold BandSample.height, np.shape_at; lia).
    apply tile_grid_tiles; try assumption.
    + intros y x. eexists. apply BandSample_sample_ok, Hvalid.
    + unfold BandSample.generate_samples.
      now rewrite tile_origins_grid by assumption.
Qed.

Lemma generate_samples_tiles_witness :
  tiles 100 100 30 40
        (fun y x => Band.sample Demo.externals Demo.band y x 40 30)
        (Band.generate_samples Demo.externals Demo.band 30 40) /\
  tiles 3 4 2 2
        (fun y x => BandSample.sample Demo.externals Demo.patch y x 2 2)
        (BandSample.generate_samples Demo.externals Demo.patch 2 2).
Proof.
  split.
  - destruct (generate_samples_tiles Demo.externals 30 40) as [Hband _];
      [lia | lia |].
    apply (Hband Demo.band); [split; reflexivity | | ];
      [change (Band.width Demo.band) with 100
      |change (Band.height Demo.band) with 100]; lia.
  - destruct (generate_samples_tiles Demo.externals 2 2) as [_ Hsample];
      [lia | lia |].
    apply (Hsample Demo.patch). reflexivity.
Defined.

(** ** The effect monad *)

Lemma bind_inv {A B : Type} (m : M A) (k : A -> M B) (w w' : world) (y : B) :
  bind m k w = (Ok y, w') ->
  exists x w1, m w = (Ok x, w1) /\ k x w1 = (Ok y, w').
Proof.
  unfold bind. destruct (m w) as [[x|err] w1]; intros Hk.
  - now exists x, w1.
  - discriminate Hk.
Qed.

Lemma bind_ok {A B : Type} (m : M A) (k : A -> M B) (w w1 : world) (x : A) :
  m w = (Ok x, w1) -> bind m k w = k x w1.
Proof. unfold bind. now intros ->. Qed.

Lemma lift_inv {A : Type} (r : result A) (w w' : world) (x : A) :
  lift r w = (Ok x, w') -> r = Ok x /\ w' = w.
Proof. unfold lift. intros [= -> ->]. now split. Qed.

Lemma rbind_inv {A B : Type} (r : result A) (k : A -> result B) (y : B) :
  rbind r k = Ok y -> exists x, r = Ok x /\ k x = Ok y.
Proof. destruct r as [x|err]; cbn; [now exists x | discriminate]. Qed.

Lemma py_div_ok (x y : Q) : ~ (y == 0)%Q -> py_div x y = Ok (x / y)%Q.
Proof.
  intros Hy. unfold py_div. destruct (Qeq_bool y 0) eqn:Heq; [|reflexivity].
  apply Qeq_bool_iff in Heq. contradiction.
Qed.

Lemma Qdiv_nonzero (x y : Q) :
  ~ (x == 0)%Q -> ~ (y == 0)%Q -> ~ (x / y == 0)%Q.
Proof.
  intros Hx Hy Hq. apply Hx.
  rewrite <- (Qmult_div_r x y Hy), Hq. ring.
Qed.

Lemma rasterio_open_inv (fp : string) (w w' : world) (rd : reader) :
  rasterio_open fp w = (Ok rd, w') ->
  exists ds, fs w !! fp = Some ds /\ rd = mkReader fp ds /\
             fs w' = fs w /\ names_drawn w' = names_drawn w /\
             trace w' = trace w ++ [EvOpen fp].
Proof.
  unfold rasterio_open. destruct (fs w !! fp) as [ds|] eqn:Hfp.
  - cbn. intros [= <- <-]. exists ds. cbn. repeat split.
  - cbn. discriminate.
Qed.

Lemma bind_emit {B : Type} (ev : event) (k : unit -> M B) (w : world) :
  bind (emit ev) k w
  = k tt {| fs := fs w; names_drawn := names_drawn w;
            trace := trace w ++ [ev] |}.
Proof. reflexivity. Qed.

Lemma bind_lift_ok {A B : Type} (x : A) (k : A -> M B) (w : world) :
  bind (lift (Ok x)) k w = k x w.
Proof. reflexivity. Qed.

Lemma bind_lift_raise {A B : Type} (err : exn) (k : A -> M B) (w : world) :
  bind (lift (Raise err)) k w = (Raise err, w).
Proof. reflexivity. Qed.

(** ** Resampling and reprojecting a band *)

Section BandFactories.
Context (E : Externals).

Lemma destination_ok (b : Band.t) (fp : option string) (kind : string)
    (w : world) :
  exists path w1,
    Band.destination E b fp kind w = (Ok path, w1) /\
    fs w1 = fs w /\ trace w1 = trace w /\
    (forall p, fp = Some p -> path = p).
Proof.
  destruct fp as [p|]; cbn.
  - exists p, w. repeat split. now intros ? [= ->].
  - eexists _, _. split; [reflexivity|]. cbn. repeat split. discriminate.
Qed.

Lemma drop_while_nil (p : ascii -> bool) (l : list ascii) :
  drop_while p l = [] -> forallb p l = true.
Proof.
  induction l as [|x l IH]; cbn; [reflexivity|].
  destruct (p x); [exact IH | discriminate].
Qed.

Lemma forallb_rev (p : ascii -> bool) (l : list ascii) :
  forallb p (rev l) = forallb p l.
Proof.
  destruct (forallb p l) eqn:Hl.
  - apply forallb_forall. intros x Hx. apply in_rev in Hx.
    now apply (proj1 (forallb_forall p l) Hl).
  - destruct (forallb p (rev l)) eqn:Hr; [|reflexivity].
    rewrite <- Hl. symmetry. apply forallb_forall. intros x Hx.
    apply (proj1 (forallb_forall p (rev l)) Hr). now apply in_rev in Hx.
Qed.

(** A path that holds a separator has a directory part. *)
Lemma dirname_with_sep (p : string) :
  In sep (list_ascii_of_string p) -> dirname p <> EmptyString.
Proof.
  intros Hsep. unfold dirname.
  set (head := rev (drop_while not_sep (rev (list_ascii_of_string p)))).
  assert (Hhead : head <> []).
  { unfold head. intros Hnil. apply (f_equal (@rev ascii)) in Hnil.
    rewrite rev_involutive in Hnil. cbn in Hnil.
    apply drop_while_nil in Hnil. rewrite forallb_rev in Hnil.
    apply (proj1 (forallb_forall _ _) Hnil) in Hsep.
    unfold not_sep, is_sep in Hsep. now rewrite Ascii.eqb_refl in Hsep. }
  destruct (forallb is_sep head) eqn:Hall.
  - destruct head; [congruence | discriminate].
  - destruct (rev (drop_while is_sep (rev head))) eqn:Hrest; [|discriminate].
    exfalso. apply (f_equal (@rev ascii)) in Hrest.
    rewrite rev_involutive in Hrest. cbn in Hrest.
    apply drop_while_nil in Hrest. rewrite forallb_rev in Hrest. congruence.
Qed.

Lemma destination_has_directory (b : Band.t) (fp : option string)
    (kind : string) (w w1 : world) (path : string) :
  has_directory fp ->
  Band.destination E b fp kind w = (Ok path, w1) ->
  dirname path <> EmptyString.
Proof.
  intros Hfp. destruct fp as [p|]; cbn; intros [= <- _].
  - exact (proj1 (Hfp p eq_refl)).
  - apply dirname_with_sep. cbn. now left.
Qed.

Lemma bind_makedirs {B : Type} (dir : string) (k : unit -> M B) (w : world) :
  dir <> EmptyString ->
  bind (os_makedirs dir) k w
  = k tt {| fs := fs w; names_drawn := names_drawn w;
            trace := trace w ++ [EvMakedirs dir] |}.
Proof. intros Hdir. destruct dir; [congruence | reflexivity]. Qed.

Lemma write_warped_ok (b : Band.t) (fp : string) (kwargs : metadata)
    (dst_transform : Affine) (dst_crs : CRS) (interpolation : string)
    (r : Resampling) (w : world) :
  0 < m_width kwargs -> 0 < m_height kwargs ->
  Resampling_getattr interpolation = Ok r ->
  exists pixels,
    Band.write_warped E b fp kwargs dst_transform dst_crs interpolation w
    = (Ok tt, {| fs := <[fp := mkDataset kwargs pixels]>
                         (<[fp := mkDataset kwargs []]> (fs w));
                 names_drawn := names_drawn w;
                 trace := ((trace w ++ [EvCreate fp]) ++ [EvWarp])
                          ++ [EvClose fp] |}).
Proof.
  intros Hw Hh Hr. eexists. unfold Band.write_warped.
  destruct (Z.ltb_spec 0 (m_width kwargs)); [|lia].
  destruct (Z.ltb_spec 0 (m_height kwargs)); [|lia]. cbn [andb].
  rewrite bind_emit. unfold write_file at 1. unfold bind at 1.
  unfold closing. rewrite Hr, bind_lift_ok, bind_emit. reflexivity.
Qed.

Lemma Band_init_ok (fp : string) (ds : dataset) (w : world) :
  fs w !! fp = Some ds ->
  Band.__init__ fp w
  = (Ok {| Band._band := mkReader fp ds; Band._tmp_file := false |},
     {| fs := fs w; names_drawn := names_drawn w;
        trace := trace w ++ [EvOpen fp] |}).
Proof.
  intros Hfp. unfold Band.__init__, bind, rasterio_open. rewrite Hfp.
  reflexivity.
Qed.

(** What [Band.resample] returns when nothing raises: the destination has
    a directory, pixel sizes and divisors are not zero, the new size is
    positive and the interpolation is one the warp engine has. *)
Lemma Band_resample_ok (b : Band.t) (rx ry : Q) (fp : option string)
    (interpolation : string) (w : world) (r : Resampling) :
  has_directory fp ->
  ~ (rx == 0)%Q -> ~ (ry == 0)%Q ->
  ~ (fst (Band.res b) == 0)%Q -> ~ (snd (Band.res b) == 0)%Q ->
  0 < py_round (inject_Z (Band.width b) / (rx / fst (Band.res b))) ->
  0 < py_round (inject_Z (Band.height b) / (ry / snd (Band.res b))) ->
  Resampling_getattr interpolation = Ok r ->
  exists path pixels w',
    Band.resample E b (rx, ry) fp interpolation w
    = (Ok {| Band._band :=
               mkReader path
                 (mkDataset
                    (Band.update_meta (Band.meta b) (Band.crs b)
                       (mkAffine rx (aff_b (Band.transform b))
                                 (aff_c (Band.transform b))
                                 (aff_d (Band.transform b)) (- ry)%Q
                                 (aff_f (Band.transform b)))
                       (py_round (inject_Z (Band.width b)
                                  / (rx / fst (Band.res b))))
                       (py_round (inject_Z (Band.height b)
                                  / (ry / snd (Band.res b)))))
                    pixels);
             Band._tmp_file :=
               match fp with Some _ => false | None => true end |}, w') /\
    is_Some (fs w' !! path) /\
    (forall p, fp = Some p -> path = p).
Proof.
  intros Hfp Hrx Hry Hresx Hresy Hwpos Hhpos Hr. unfold Band.resample.
  destruct (destination_ok b fp "resampled" w) as (path & w1 & Hd & _ & _ & Hp).
  pose proof (destination_has_directory _ _ _ _ _ _ Hfp Hd) as Hdir.
  rewrite (bind_ok _ _ _ _ _ Hd), (bind_makedirs _ _ _ Hdir). cbn [fst snd].
  rewrite (py_div_ok rx) by assumption. cbn [rbind].
  rewrite py_div_ok by (apply Qdiv_nonzero; assumption). cbn [rbind].
  rewrite bind_lift_ok.
  rewrite (py_div_ok ry) by assumption. cbn [rbind].
  rewrite py_div_ok by (apply Qdiv_nonzero; assumption). cbn [rbind].
  rewrite bind_lift_ok.
  match goal with
  | |- context [Band.write_warped E b path ?kw ?t ?c interpolation] =>
      destruct (write_warped_ok b path kw t c interpolation r
                  {| fs := fs w1; names_drawn := names_drawn w1;
                     trace := trace w1 ++ [EvMakedirs (dirname path)] |}
                  Hwpos Hhpos Hr)
        as (pixels & Hw)
  end.
  rewrite (bind_ok _ _ _ _ _ Hw).
  erewrite (bind_ok (Band.__init__ path));
    [|apply Band_init_ok; cbn [fs]; apply lookup_insert_eq].
  exists path, pixels. eexists. split; [reflexivity|].
  split; [|exact Hp]. cbn [fs]. rewrite lookup_insert_eq. eauto.
Qed.

End BandFactories.



(** ** Life cycle of the backing file *)

Section LifeCycle.
Context (E : Externals).

Lemma Band_init_inv (fp : string) (w w' : world) (b : Band.t) :
  Band.__init__ fp w = (Ok b, w') ->
  Band._tmp_file b = false /\ rd_name (Band._band b) = fp /\
  is_Some (fs w' !! fp) /\ fs w' = fs w.
Proof.
  unfold Band.__init__. intros Hb.
  apply bind_inv in Hb as (rd & w1 & Hrd & Hb).
  apply rasterio_open_inv in Hrd as (ds & Hfp & -> & Hfs & _ & _).
  injection Hb as <- <-. cbn. rewrite Hfs, Hfp. eauto.
Qed.

(** The last step of both factories: open what was written and set the
    flag. *)
Lemma reopen_inv (fp : string) (tmp_file : bool) (w w' : world) (b : Band.t) :
  bind (Band.__init__ fp)
       (fun band => ret {| Band._band := Band._band band;
                           Band._tmp_file := tmp_file |}) w = (Ok b, w') ->
  Band._tmp_file b = tmp_file /\ rd_name (Band._band b) = fp /\
  is_Some (fs w' !! fp).
Proof.
  intros Hb. apply bind_inv in Hb as (band & w1 & Hband & Hb).
  apply Band_init_inv in Hband as (_ & Hname & Hfp & _).
  injection Hb as <- <-. cbn. auto.
Qed.

Lemma destination_inv (b : Band.t) (fp : option string) (kind : string)
    (w w' : world) (path : string) :
  Band.destination E b fp kind w = (Ok path, w') ->
  forall p, fp = Some p -> path = p.
Proof.
  intros Hd p ->. cbn in Hd. now injection Hd as <- _.
Qed.

Lemma Band_resample_inv (b : Band.t) (dst_res : Q * Q) (fp : option string)
    (interpolation : string) (w w' : world) (b' : Band.t) :
  Band.resample E b dst_res fp interpolation w = (Ok b', w') ->
  Band._tmp_file b' = flag_for fp /\
  is_Some (fs w' !! rd_name (Band._band b')) /\
  (forall p, fp = Some p -> rd_name (Band._band b') = p).
Proof.
  unfold Band.resample. intros Hb.
  apply bind_inv in Hb as (path & w1 & Hd & Hb).
  apply bind_inv in Hb as (? & w2 & _ & Hb).
  apply bind_inv in Hb as (width' & w3 & _ & Hb).
  apply bind_inv in Hb as (height' & w4 & _ & Hb).
  apply bind_inv in Hb as (? & w5 & _ & Hb).
  apply reopen_inv in Hb as (Hflag & Hname & Hfp).
  rewrite Hname. repeat split; try assumption.
  exact (destination_inv _ _ _ _ _ _ Hd).
Qed.

Lemma Band_reproject_inv (b : Band.t) (dst_crs : crs_arg) (fp : option string)
    (interpolation : string) (w w' : world) (b' : Band.t) :
  Band.reproject E b dst_crs fp interpolation w = (Ok b', w') ->
  Band._tmp_file b' = flag_for fp /\
  is_Some (fs w' !! rd_name (Band._band b')) /\
  (forall p, fp = Some p -> rd_name (Band._band b') = p).
Proof.
  unfold Band.reproject. intros Hb.
  apply bind_inv in Hb as (dst & w1 & _ & Hb).
  destruct (negb (is_valid dst)); [discriminate Hb|].
  apply bind_inv in Hb as (path & w2 & Hd & Hb).
  apply bind_inv in Hb as (? & w3 & _ & Hb).
  destruct (calculate_default_transform E _ _ _ _ _) as [[transform' width'] height'].
  apply bind_inv in Hb as (? & w4 & _ & Hb).
  apply reopen_inv in Hb as (Hflag & Hname & Hfp).
  rewrite Hname. repeat split; try assumption.
  exact (destination_inv _ _ _ _ _ _ Hd).
Qed.

Lemma del_temporary (b : Band.t) (w : world) :
  Band._tmp_file b = true -> is_Some (fs w !! rd_name (Band._band b)) ->
  destroy_deletes b w.
Proof.
  intros Hflag [ds Hfp]. unfold destroy_deletes, Band.__del__.
  rewrite bind_emit, Hflag. unfold os_remove. cbn [fs trace names_drawn].
  rewrite Hfp. eexists. split; [reflexivity|]. cbn [fs trace].
  split; [reflexivity|]. split; [apply lookup_delete_eq|].
  now rewrite <- app_assoc.
Qed.

Lemma del_permanent (b : Band.t) (w : world) :
  Band._tmp_file b = false -> destroy_keeps b w.
Proof.
  intros Hflag. unfold destroy_keeps, Band.__del__.
  rewrite bind_emit, Hflag. eexists. split; [reflexivity|]. now cbn.
Qed.

End LifeCycle.

(** C8. A band opened from a path has its temporary flag unset, and
    destroying it closes the handle and deletes nothing. A band returned
    by [resample] or [reproject] has the flag set exactly when no [fp] was
    given: destroying the one made with [fp=None] closes the handle and
    then removes its backing file, destroying the one made with an explicit
    [fp] closes the handle and leaves that file, and every other, in
    place. In general [__del__] closes first and removes the file if and
    only if the flag is set. *)
Theorem temporary_file_lifecycle (E : Externals) :
  (forall fp w b w',
      Band.__init__ fp w = (Ok b, w') ->
      Band._tmp_file b = false /\ forall w2, destroy_keeps b w2) /\
  (forall b dst_res fp interpolation w b' w',
      Band.resample E b dst_res fp interpolation w = (Ok b', w') ->
      Band._tmp_file b' = flag_for fp /\
      (fp = None -> destroy_deletes b' w') /\
      (forall p, fp = Some p ->
                 rd_name (Band._band b') = p /\ forall w2, destroy_keeps b' w2)) /\
  (forall b dst_crs fp interpolation w b' w',
      Band.reproject E b dst_crs fp interpolation w = (Ok b', w') ->
      Band._tmp_file b' = flag_for fp /\
      (fp = None -> destroy_deletes b' w') /\
      (forall p, fp = Some p ->
                 rd_name (Band._band b') = p /\ forall w2, destroy_keeps b' w2)) /\
  (forall b w,
      (Band._tmp_file b = true ->
       is_Some (fs w !! rd_name (Band._band b)) -> destroy_deletes b w) /\
      (Band._tmp_file b = false -> destroy_keeps b w)).
Proof.
  assert (Hfactory : forall fp b' w',
    Band._tmp_file b' = flag_for fp ->
    is_Some (fs w' !! rd_name (Band._band b')) ->
    (forall p, fp = Some p -> rd_name (Band._band b') = p) ->
    Band._tmp_file b' = flag_for fp /\
    (fp = None -> destroy_deletes b' w') /\
    (forall p, fp = Some p ->
               rd_name (Band._band b') = p /\ forall w2, destroy_keeps b' w2)).
  { intros fp b' w' Hflag Hfile Hname. split; [exact Hflag|]. split.
    - intros ->. now apply del_temporary.
    - intros p ->. split; [now apply Hname|].
      intros w2. now apply del_permanent. }
  split; [|split; [|split]].
  - intros fp w b w' Hb. apply Band_init_inv in Hb as (Hflag & _).
    split; [exact Hflag|]. intros w2. now apply del_permanent.
  - intros b dst_res fp interpolation w b' w' Hb.
    apply Band_resample_inv in Hb as (Hflag & Hfile & Hname).
    now apply Hfactory.
  - intros b dst_crs fp interpolation w b' w' Hb.
    apply Band_reproject_inv in Hb as (Hflag & Hfile & Hname).
    now apply Hfactory.
  - intros b w. split; [apply del_temporary | apply del_permanent].
Qed.

Lemma temporary_file_lifecycle_witness :
  (exists b' w',
      Band.resample Demo.externals Demo.band (2, 2)%Q None "nearest" Demo.disk
      = (Ok b', w') /\ destroy_deletes b' w') /\
  (exists b' w',
      Band.resample Demo.externals Demo.band (2, 2)%Q
                    (Some "/data/out.tif"%string) "nearest" Demo.disk
      = (Ok b', w') /\
      rd_name (Band._band b') = "/data/out.tif"%string /\
      destroy_keeps b' w').
Proof.
  destruct (temporary_file_lifecycle Demo.externals) as (_ & Hresample & _ & _).
  split.
  - destruct (Band_resample_ok Demo.externals Demo.band 2 2 None "nearest"
                Demo.disk R_nearest)
      as (path & pixels & w' & Hres & _ & _);
      [discriminate | discriminate | discriminate | discriminate | discriminate
      | reflexivity | reflexivity | reflexivity |].
    eexists _, w'. split; [exact Hres|].
    now apply (Hresample _ _ _ _ _ _ _ Hres).
  - destruct (Band_resample_ok Demo.externals Demo.band 2 2
                (Some "/data/out.tif"%string) "nearest" Demo.disk R_nearest)
      as (path & pixels & w' & Hres & _ & _);
      [intros p [= <-]; vm_compute; split; discriminate
      | discriminate | discriminate | discriminate | discriminate
      | reflexivity | reflexivity | reflexivity |].
    eexists _, w'. split; [exact Hres|].
    destruct (Hresample _ _ _ _ _ _ _ Hres) as (_ & _ & Hkeep).
    destruct (Hkeep "/data/out.tif"%string eq_refl) as [Hname Hall].
    split; [exact Hname | apply Hall].
Defined.

(** ** Validation of the CRS *)

Lemma BandSample_init_valid (E : Externals) (name : string)
    (raster : np.ndarray) (crs : crs_arg) (transform : transform_arg)
    (nodata : Q) (s : BandSample.t) :
  BandSample.__init__ E name raster crs transform nodata = Ok s ->
  is_valid (BandSample.crs s) = true.
Proof.
  unfold BandSample.__init__. intros Hs.
  apply rbind_inv in Hs as (raster' & _ & Hs).
  apply rbind_inv in Hs as (transform' & _ & Hs).
  apply rbind_inv in Hs as (crs' & _ & Hs).
  destruct (is_valid crs') eqn:Hvalid; cbn in Hs; [|discriminate Hs].
  injection Hs as <-. exact Hvalid.
Qed.

(** C9. [Band.reproject] and [BandSample.reproject] raise the CRS error
    when the destination CRS they resolved is invalid, and the world is
    then as it was: no path drawn, no directory or file created, no call to
    the warp engine. The [BandSample] constructor raises for an invalid
    CRS, with the CRS error once the shape guard and the transform have
    passed, so every sample it returns has a valid CRS. *)
Theorem invalid_crs_fails_fast (E : Externals) (c : CRS) :
  is_valid c = false ->
  (forall b dst_crs fp interpolation w,
      BandSample.resolve_crs E (Band.crs b) (Band.transform b)
                             (Band.height b, Band.width b) dst_crs = Ok c ->
      Band.reproject E b dst_crs fp interpolation w = (Raise CRSError, w)) /\
  (forall s dst_crs interpolation w,
      BandSample.resolve_crs E (BandSample.crs s) (BandSample.transform s)
                             (BandSample.height s, BandSample.width s) dst_crs
      = Ok c ->
      BandSample.reproject E s dst_crs interpolation w = (Raise CRSError, w)) /\
  (forall name raster crs transform nodata,
      crs_of_arg E crs = Ok c ->
      (exists err,
          BandSample.__init__ E name raster crs transform nodata = Raise err) /\
      (forall raster' transform',
          band_shape_guard raster = Ok raster' ->
          affine_of_arg transform = Ok transform' ->
          BandSample.__init__ E name raster crs transform nodata
          = Raise CRSError)) /\
  (forall name raster crs transform nodata s,
      BandSample.__init__ E name raster crs transform nodata = Ok s ->
      is_valid (BandSample.crs s) = true).
Proof.
  intros Hc. split; [|split; [|split]].
  - intros b dst_crs fp interpolation w Hdst. unfold Band.reproject.
    rewrite Hdst, bind_lift_ok, Hc. reflexivity.
  - intros s dst_crs interpolation w Hdst. unfold BandSample.reproject.
    rewrite Hdst, bind_lift_ok, Hc. reflexivity.
  - intros name raster crs transform nodata Hcrs.
    unfold BandSample.__init__. fold (crs_of_arg E crs).
    fold (affine_of_arg transform). rewrite Hcrs. split.
    + destruct (band_shape_guard raster) as [raster'|err]; cbn [rbind];
        [|now exists err].
      destruct (affine_of_arg transform) as [transform'|err]; cbn [rbind];
        [|now exists err].
      rewrite Hc. now exists CRSError.
    + intros raster' transform' -> ->. cbn [rbind]. rewrite Hc. reflexivity.
  - intros name raster crs transform nodata s. apply BandSample_init_valid.
Qed.

Lemma invalid_crs_fails_fast_witness :
  Band.reproject Demo.externals Demo.band (ArgStr "bad") None "nearest" Demo.disk
  = (Raise CRSError, Demo.disk) /\
  BandSample.reproject Demo.externals Demo.patch (ArgCRS Demo.broken_crs)
                       "nearest" Demo.disk
  = (Raise CRSError, Demo.disk) /\
  BandSample.__init__ Demo.externals "x" (BandSample._raster Demo.patch)
                      (ArgStr "bad") (ArgAffine Demo.north_up) 0
  = Raise CRSError.
Proof.
  destruct (invalid_crs_fails_fast Demo.externals Demo.broken_crs eq_refl)
    as (Hband & Hsample & Hinit & _).
  split; [|split].
  - apply Hband. reflexivity.
  - apply Hsample. reflexivity.
  - destruct (Hinit "x"%string (BandSample._raster Demo.patch) (ArgStr "bad")
                      (ArgAffine Demo.north_up) 0%Q eq_refl) as [_ Hraise].
    apply (Hraise (BandSample._raster Demo.patch) Demo.north_up);
      reflexivity.
Defined.

(** ** Resampling: axis order and output shape *)

Section Resampling.
Context (E : Externals).

Lemma py_int_nonneg (x : Q) : (0 <= x)%Q -> 0 <= py_int x.
Proof.
  unfold py_int, Qle. cbn [Qnum Qden]. intros Hx.
  apply Z.quot_pos; lia.
Qed.

Lemma scaled_size_nonneg (n : Z) (r d : Q) :
  0 <= n -> (0 < d)%Q -> (0 <= inject_Z n * Qabs r / d)%Q.
Proof.
  intros Hn Hd. unfold Qdiv. apply Qmult_le_0_compat.
  - apply Qmult_le_0_compat; [|apply Qabs_nonneg].
    change 0%Q with (inject_Z 0). now rewrite <- Zle_Qle.
  - apply Qinv_le_0_compat. now apply Qlt_le_weak.
Qed.

Lemma Qpos_nonzero (d : Q) : (0 < d)%Q -> ~ (d == 0)%Q.
Proof. intros Hd Heq. rewrite Heq in Hd. now apply Qlt_irrefl in Hd. Qed.

Lemma write_warped_inv (b : Band.t) (fp : string) (kwargs : metadata)
    (dst_transform : Affine) (dst_crs : CRS) (interpolation : string)
    (w w' : world) :
  Band.write_warped E b fp kwargs dst_transform dst_crs interpolation w
  = (Ok tt, w') ->
  exists pixels, fs w' !! fp = Some (mkDataset kwargs pixels).
Proof.
  unfold Band.write_warped.
  destruct ((0 <? m_width kwargs) && (0 <? m_height kwargs));
    [|discriminate].
  rewrite bind_emit. unfold write_file at 1. unfold bind at 1.
  unfold closing. destruct (Resampling_getattr interpolation) as [r|err].
  - rewrite bind_lift_ok, bind_emit. unfold write_file. intros [= <-].
    eexists. cbn [fs]. apply lookup_insert_eq.
  - rewrite bind_lift_raise. discriminate.
Qed.

Lemma Band_resample_transform (b : Band.t) (p q : Q) (fp : option string)
    (interpolation : string) (w w' : world) (b' : Band.t) :
  Band.resample E b (p, q) fp interpolation w = (Ok b', w') ->
  Band.transform b'
  = mkAffine p (aff_b (Band.transform b)) (aff_c (Band.transform b))
             (aff_d (Band.transform b)) (- q)%Q (aff_f (Band.transform b)).
Proof.
  unfold Band.resample. intros Hb.
  apply bind_inv in Hb as (path & w1 & _ & Hb).
  apply bind_inv in Hb as (? & w2 & _ & Hb).
  apply bind_inv in Hb as (width' & w3 & _ & Hb).
  apply bind_inv in Hb as (height' & w4 & _ & Hb).
  apply bind_inv in Hb as ([] & w5 & Hw & Hb).
  apply write_warped_inv in Hw as (pixels & Hfile).
  apply bind_inv in Hb as (band & w6 & Hband & Hb).
  unfold Band.__init__ in Hband.
  apply bind_inv in Hband as (rd & w7 & Hrd & Hband).
  apply rasterio_open_inv in Hrd as (ds & Hds & -> & _).
  rewrite Hfile in Hds. injection Hds as <-.
  injection Hband as <- _. injection Hb as <- _. reflexivity.
Qed.

Lemma BandSample_resample_transform (s : BandSample.t) (p q : Q)
    (dst_shape : option (Z * Z * Z)) (interpolation : string) (w w' : world)
    (s' : BandSample.t) :
  BandSample.resample E s (Some (p, q)) dst_shape interpolation w = (Ok s', w') ->
  BandSample.transform s'
  = mkAffine q (aff_b (BandSample.transform s)) (aff_c (BandSample.transform s))
             (aff_d (BandSample.transform s)) (- p)%Q
             (aff_f (BandSample.transform s)).
Proof.
  unfold BandSample.resample. intros Hs.
  apply bind_inv in Hs as ([th tw] & w1 & _ & Hs).
  apply bind_inv in Hs as (empty & w2 & _ & Hs).
  apply bind_inv in Hs as (r & w3 & _ & Hs).
  apply bind_inv in Hs as (filled & w4 & _ & Hs).
  apply lift_inv in Hs as [Hs _]. unfold BandSample.__init__ in Hs.
  apply rbind_inv in Hs as (raster' & _ & Hs).
  apply rbind_inv in Hs as (transform' & Htr & Hs).
  apply rbind_inv in Hs as (crs' & _ & Hs).
  destruct (negb (is_valid crs')); [discriminate Hs|].
  injection Hs as <-. injection Htr as <-. reflexivity.
Qed.

(** What [BandSample.resample(dst_res=(p, q))] returns when nothing
    raises: positive pixel sizes, a valid CRS, an interpolation the warp
    engine has. *)
Lemma BandSample_resample_ok (s : BandSample.t) (p q : Q)
    (interpolation : string) (w : world) (r : Resampling) :
  (0 < p)%Q -> (0 < q)%Q -> is_valid (BandSample.crs s) = true ->
  Resampling_getattr interpolation = Ok r ->
  exists s' w',
    BandSample.resample E s (Some (p, q)) None interpolation w = (Ok s', w') /\
    BandSample.height s'
    = py_int (inject_Z (BandSample.height s) * fst (BandSample.res s) / p) /\
    BandSample.width s'
    = py_int (inject_Z (BandSample.width s) * snd (BandSample.res s) / q).
Proof.
  intros Hp Hq Hvalid Hr. unfold BandSample.resample. cbn [fst snd].
  rewrite !py_div_ok by (apply Qpos_nonzero; assumption). cbn [rbind].
  rewrite bind_lift_ok. cbv beta iota.
  set (th := py_int (inject_Z (BandSample.height s) * _ / p)).
  set (tw := py_int (inject_Z (BandSample.width s) * _ / q)).
  assert (Hth : 0 <= th).
  { apply py_int_nonneg, scaled_size_nonneg; [|exact Hp].
    unfold BandSample.height, np.shape_at. lia. }
  assert (Htw : 0 <= tw).
  { apply py_int_nonneg, scaled_size_nonneg; [|exact Hq].
    unfold BandSample.width, np.shape_at. lia. }
  unfold np.empty. cbn [forallb].
  destruct (Z.leb_spec 0 th); [|lia]. destruct (Z.leb_spec 0 tw); [|lia].
  cbn [andb Z.leb Z.compare]. rewrite bind_lift_ok, Hr, bind_lift_ok.
  unfold BandSample.warp. unfold bind at 1. rewrite bind_emit.
  unfold ret at 1. cbn [np.shape map].
  change (Z.to_nat 1) with 1%nat.
  unfold lift, BandSample.__init__, band_shape_guard. cbn [np.shape rbind].
  rewrite Hvalid. cbn [negb]. eexists _, _. split; [reflexivity|].
  unfold BandSample.height at 1, BandSample.width at 1, np.shape_at.
  cbn [BandSample._raster np.shape nth]. split; lia.
Qed.

End Resampling.

(** The shape [BandSample.resample] gives its result, in each of its three
    cases: [dst_shape] wins when given; with [dst_res] alone the sizes are
    truncated quotients, the height scaled by [res[0]] and the width by
    [res[1]]; with neither the shape is kept. *)
Lemma BandSample_resample_shape (E : Externals) (s : BandSample.t)
    (dst_res : option (Q * Q)) (dst_shape : option (Z * Z * Z))
    (interpolation : string) (w w' : world) (s' : BandSample.t) :
  BandSample.resample E s dst_res dst_shape interpolation w = (Ok s', w') ->
  match dst_res, dst_shape with
  | _, Some ds =>
      BandSample.height s' = snd (fst ds) /\ BandSample.width s' = snd ds
  | Some dr, None =>
      BandSample.height s'
      = py_int (inject_Z (BandSample.height s) * fst (BandSample.res s) / fst dr) /\
      BandSample.width s'
      = py_int (inject_Z (BandSample.width s) * snd (BandSample.res s) / snd dr)
  | None, None =>
      BandSample.height s' = BandSample.height s /\
      BandSample.width s' = BandSample.width s
  end.
Proof.
  unfold BandSample.resample. intros Hs.
  apply bind_inv in Hs as ([th tw] & w1 & Htarget & Hs).
  apply lift_inv in Htarget as [Htarget _].
  apply bind_inv in Hs as (empty & w2 & Hempty & Hs).
  apply lift_inv in Hempty as [Hempty _].
  apply bind_inv in Hs as (r & w3 & _ & Hs).
  apply bind_inv in Hs as (filled & w4 & Hfilled & Hs).
  apply lift_inv in Hs as [Hs _].
  assert (Hdims : 0 <= th /\ 0 <= tw /\
                  np.shape empty = [1%nat; Z.to_nat th; Z.to_nat tw]).
  { unfold np.empty in Hempty. cbn [forallb] in Hempty.
    destruct (Z.leb_spec 0 th); [|cbn in Hempty; discriminate Hempty].
    destruct (Z.leb_spec 0 tw); [|cbn in Hempty; discriminate Hempty].
    cbn [andb Z.leb Z.compare] in Hempty. injection Hempty as <-.
    repeat split; assumption. }
  destruct Hdims as (Hth & Htw & Hshape).
  unfold BandSample.warp in Hfilled. rewrite bind_emit in Hfilled.
  injection Hfilled as <- _.
  unfold BandSample.__init__, band_shape_guard in Hs.
  cbn [np.shape] in Hs. rewrite Hshape in Hs. cbn [rbind] in Hs.
  destruct (negb (is_valid (BandSample.crs s))); [discriminate Hs|].
  injection Hs as <-.
  assert (Hh : forall a b, BandSample.height
            {| BandSample._name := BandSample._name s;
               BandSample._raster :=
                 {| np.shape := [Z.to_nat th; Z.to_nat tw]; np.buf := a |};
               BandSample._nodata := BandSample.nodata s;
               BandSample._transform := b;
               BandSample._crs := BandSample.crs s |} = th).
  { intros a b. unfold BandSample.height, np.shape_at. cbn. lia. }
  assert (Hw : forall a b, BandSample.width
            {| BandSample._name := BandSample._name s;
               BandSample._raster :=
                 {| np.shape := [Z.to_nat th; Z.to_nat tw]; np.buf := a |};
               BandSample._nodata := BandSample.nodata s;
               BandSample._transform := b;
               BandSample._crs := BandSample.crs s |} = tw).
  { intros a b. unfold BandSample.width, np.shape_at. cbn. lia. }
  rewrite Hh, Hw. clear Hh Hw.
  destruct dst_res as [dr|], dst_shape as [ds|].
  - injection Htarget as <- <-. now split.
  - apply rbind_inv in Htarget as (qh & Hqh & Htarget).
    apply rbind_inv in Htarget as (qw & Hqw & Htarget).
    injection Htarget as <- <-.
    unfold py_div in Hqh, Hqw.
    destruct (Qeq_bool (fst dr) 0); [discriminate Hqh|].
    destruct (Qeq_bool (snd dr) 0); [discriminate Hqw|].
    injection Hqh as <-. injection Hqw as <-. now split.
  - injection Htarget as <- <-. now split.
  - injection Htarget as <- <-. now split.
Qed.

(** C10. Whenever [BandSample.resample(dst_res=(p, q))] returns, the
    transform of its sample has a = q and e = -p, with b, c, d, f of the
    source; whenever [Band.resample((p, q))] returns, the transform of its
    band has a = p and e = -q: the two read the pair in opposite orders. *)
Theorem resample_axis_order (E : Externals) (p q : Q) :
  (forall s dst_shape interpolation w s' w',
      BandSample.resample E s (Some (p, q)) dst_shape interpolation w
      = (Ok s', w') ->
      BandSample.transform s'
      = mkAffine q (aff_b (BandSample.transform s))
                 (aff_c (BandSample.transform s))
                 (aff_d (BandSample.transform s)) (- p)%Q
                 (aff_f (BandSample.transform s))) /\
  (forall b fp interpolation w b' w',
      Band.resample E b (p, q) fp interpolation w = (Ok b', w') ->
      Band.transform b'
      = mkAffine p (aff_b (Band.transform b)) (aff_c (Band.transform b))
                 (aff_d (Band.transform b)) (- q)%Q
                 (aff_f (Band.transform b))).
Proof.
  split.
  - intros s dst_shape interpolation w s' w'.
    apply BandSample_resample_transform.
  - intros b fp interpolation w b' w'. apply Band_resample_transform.
Qed.

Lemma resample_axis_order_witness :
  (exists s' w',
      BandSample.resample Demo.externals Demo.patch (Some (1 # 2, 1 # 4)%Q) None
                          "nearest" Demo.disk = (Ok s', w') /\
      BandSample.height s' = 8 /\ BandSample.width s' = 12 /\
      BandSample.transform s' = mkAffine (1 # 4) 0 0 0 (- (1 # 2)) 0) /\
  (exists b' w',
      Band.resample Demo.externals Demo.band (1 # 2, 1 # 4)%Q None "nearest"
                    Demo.disk
      = (Ok b', w') /\
      Band.transform b' = mkAffine (1 # 2) 0 0 0 (- (1 # 4)) 0).
Proof.
  destruct (resample_axis_order Demo.externals (1 # 2) (1 # 4))
    as (Hsample & Hband).
  split.
  - destruct (BandSample_resample_ok Demo.externals Demo.patch (1 # 2) (1 # 4)
                "nearest" Demo.disk R_nearest)
      as (s' & w' & Hs & Hh & Hw);
      [reflexivity | reflexivity | reflexivity | reflexivity |].
    exists s', w'. split; [exact Hs|].
    split; [exact Hh|]. split; [exact Hw|].
    exact (Hsample _ _ _ _ _ _ Hs).
  - destruct (Band_resample_ok Demo.externals Demo.band (1 # 2) (1 # 4) None
                "nearest" Demo.disk R_nearest)
      as (path & pixels & w' & Hb & _);
      [discriminate | discriminate | discriminate | discriminate | discriminate
      | reflexivity | reflexivity | reflexivity |].
    eexists _, w'. split; [exact Hb|]. exact (Hband _ _ _ _ _ _ Hb).
Defined.

(** C5, at an input where it fails. A sample of 4 rows by 3 columns whose
    pixels are 1 wide and 2 high (transform.a = 1, transform.e = -2) is
    resampled with [dst_res=(1, 1)] and no [dst_shape]. The claim gives
    height trunc(4 * res.y / 1) = 8 and width trunc(3 * res.x / 1) = 3;
    the code multiplies the height by [res[0]] = |a| and the width by
    [res[1]] = |e| and returns 4 rows by 6 columns. *)
Theorem resample_shape_pairs_height_with_res_x :
  exists s' w',
    BandSample.resample Demo.externals Demo.tall_patch (Some (1, 1)%Q) None
                        "nearest" Demo.disk = (Ok s', w') /\
    BandSample.height s' = 4 /\ BandSample.width s' = 6 /\
    py_int (inject_Z (BandSample.height Demo.tall_patch)
            * snd (BandSample.res Demo.tall_patch) / 1) = 8 /\
    py_int (inject_Z (BandSample.width Demo.tall_patch)
            * fst (BandSample.res Demo.tall_patch) / 1) = 3.
Proof.
  destruct (BandSample_resample_ok Demo.externals Demo.tall_patch 1 1
              "nearest" Demo.disk R_nearest)
    as (s' & w' & Hs & Hh & Hw);
    [reflexivity | reflexivity | reflexivity | reflexivity |].
  exists s', w'. split; [exact Hs|]. rewrite Hh, Hw. repeat split.
Qed.

(** * Further properties of the module *)

(** ** Equality tests *)

Lemma Qeq_bool_sym_eq (x y : Q) : Qeq_bool x y = Qeq_bool y x.
Proof.
  destruct (Qeq_bool x y) eqn:Hxy, (Qeq_bool y x) eqn:Hyx; try reflexivity.
  - apply Qeq_bool_iff in Hxy. symmetry in Hxy.
    apply Qeq_bool_iff in Hxy. congruence.
  - apply Qeq_bool_iff in Hyx. symmetry in Hyx.
    apply Qeq_bool_iff in Hyx. congruence.
Qed.

Lemma Affine_eqb_iff (t u : Affine) :
  Affine_eqb t u = true <->
  (aff_a t == aff_a u)%Q /\ (aff_b t == aff_b u)%Q /\ (aff_c t == aff_c u)%Q /\
  (aff_d t == aff_d u)%Q /\ (aff_e t == aff_e u)%Q /\ (aff_f t == aff_f u)%Q.
Proof.
  unfold Affine_eqb. rewrite !andb_true_iff, !Qeq_bool_iff. tauto.
Qed.

Lemma Affine_eqb_sym (t u : Affine) : Affine_eqb t u = Affine_eqb u t.
Proof.
  unfold Affine_eqb.
  now rewrite (Qeq_bool_sym_eq (aff_a t)), (Qeq_bool_sym_eq (aff_b t)),
    (Qeq_bool_sym_eq (aff_c t)), (Qeq_bool_sym_eq (aff_d t)),
    (Qeq_bool_sym_eq (aff_e t)), (Qeq_bool_sym_eq (aff_f t)).
Qed.

Lemma CRS_eqb_iff (x y : CRS) : CRS_eqb x y = true <-> x = y.
Proof.
  unfold CRS_eqb. rewrite andb_true_iff, String.eqb_eq, Bool.eqb_true_iff.
  destruct x, y; cbn. split; [intros [-> ->] | intros [= -> ->]]; auto.
Qed.

Lemma CRS_eqb_sym (x y : CRS) : CRS_eqb x y = CRS_eqb y x.
Proof.
  unfold CRS_eqb. rewrite String.eqb_sym. f_equal.
  now destruct (is_valid x), (is_valid y).
Qed.

(** X1. [Band.same] is an equivalence on bands: it holds between two bands
    exactly when their CRS are equal, their transforms are equal coefficient
    by coefficient and their heights and widths are equal, so it is
    reflexive, symmetric and transitive. *)
Theorem Band_same_equivalence :
  (forall b other : Band.t,
      Band.same b other = true <->
      Band.crs b = Band.crs other /\
      Affine_eqb (Band.transform b) (Band.transform other) = true /\
      Band.height b = Band.height other /\
      Band.width b = Band.width other) /\
  (forall b : Band.t, Band.same b b = true) /\
  (forall b other : Band.t, Band.same b other = Band.same other b) /\
  (forall b1 b2 b3 : Band.t,
      Band.same b1 b2 = true -> Band.same b2 b3 = true ->
      Band.same b1 b3 = true).
Proof.
  assert (Hiff : forall b other : Band.t,
      Band.same b other = true <->
      Band.crs b = Band.crs other /\
      Affine_eqb (Band.transform b) (Band.transform other) = true /\
      Band.height b = Band.height other /\
      Band.width b = Band.width other).
  { intros b other. unfold Band.same. cbn [andb].
    rewrite !andb_true_iff, CRS_eqb_iff, !Z.eqb_eq. tauto. }
  split; [exact Hiff|]. split; [|split].
  - intros b. apply Hiff. now rewrite Affine_eqb_refl.
  - intros b other. unfold Band.same. cbn [andb].
    now rewrite CRS_eqb_sym, Affine_eqb_sym, (Z.eqb_sym (Band.height b)),
      (Z.eqb_sym (Band.width b)).
  - intros b1 b2 b3 H12 H23. apply Hiff in H12 as (Hc & Ht & Hh & Hw).
    apply Hiff in H23 as (Hc' & Ht' & Hh' & Hw'). apply Hiff.
    repeat split; try congruence.
    apply Affine_eqb_iff in Ht as (? & ? & ? & ? & ? & ?).
    apply Affine_eqb_iff in Ht' as (? & ? & ? & ? & ? & ?).
    apply Affine_eqb_iff.
    repeat split; etransitivity; eassumption.
Qed.

Lemma Band_same_equivalence_witness :
  Band.same Demo.band Demo.band = true.
Proof.
  destruct Band_same_equivalence as (_ & _ & _ & Htrans).
  apply (Htrans Demo.band Demo.band Demo.band); reflexivity.
Defined.

(** ** Windows of windows *)

Lemma Band_sample_cell (b : Band.t) (y x h w : Z) (i j : nat) :
  Band.count b = 1 -> Z.of_nat i < h -> Z.of_nat j < w ->
  np.cell2
    {| np.shape := [Z.to_nat (y + h - y); Z.to_nat (x + w - x)];
       np.buf := np.buf (read_boundless (Band._band b) y (y + h) x (x + w)
                                        (fill_of b)) |} i j
  = boundless_pixel (Band._band b) (y + Z.of_nat i) (x + Z.of_nat j)
                    (fill_of b).
Proof.
  intros Hcount Hi Hj. unfold np.cell2, read_boundless. cbn [np.shape np.buf nth].
  unfold Band.count, Band.meta in Hcount. rewrite Hcount.
  change (Z.to_nat 1) with 1%nat. cbn [seq flat_map]. rewrite app_nil_r.
  rewrite nth_tabulate2 by lia. reflexivity.
Qed.

(** X2. A window at the origin keeps the georeference: the sample that
    [Band.sample(0, 0, h, w)] or [BandSample.sample(0, 0, h, w)] returns has
    a transform equal to that of its source. *)
Theorem sample_at_origin_keeps_transform (E : Externals) (h w : Z) :
  (forall b : Band.t,
      readable b ->
      exists s, Band.sample E b 0 0 h w = Ok s /\
                Affine_eqb (BandSample.transform s) (Band.transform b) = true) /\
  (forall s : BandSample.t,
      is_valid (BandSample.crs s) = true ->
      exists s', BandSample.sample E s 0 0 h w = Ok s' /\
                 Affine_eqb (BandSample.transform s') (BandSample.transform s)
                 = true).
Proof.
  assert (Horigin : forall tr, Affine_eqb (windowed_transform tr 0 0) tr = true).
  { intros tr. apply Affine_eqb_iff. unfold windowed_transform. cbn.
    repeat split; ring. }
  split.
  - intros b Hb. eexists. split; [apply Band_sample_ok, Hb|]. apply Horigin.
  - intros s Hs. eexists. split; [apply BandSample_sample_ok, Hs|]. apply Horigin.
Qed.

Lemma sample_at_origin_keeps_transform_witness :
  (exists s, Band.sample Demo.externals Demo.band 0 0 7 9 = Ok s /\
             Affine_eqb (BandSample.transform s) (Band.transform Demo.band)
             = true) /\
  (exists s', BandSample.sample Demo.externals Demo.tall_patch 0 0 2 2 = Ok s' /\
              Affine_eqb (BandSample.transform s')
                         (BandSample.transform Demo.tall_patch) = true).
Proof.
  destruct (sample_at_origin_keeps_transform Demo.externals 7 9) as [Hband _].
  destruct (sample_at_origin_keeps_transform Demo.externals 2 2) as [_ Hsample].
  split; [apply Hband; split; reflexivity | apply Hsample; reflexivity].
Defined.

(** X3. Windows compose. Taking the window (y', x', h', w') of the sample
    that [Band.sample(y, x, h, w)] returned, with the inner window inside
    the outer one, gives what [Band.sample(y + y', x + x', h', w')] gives
    directly: the same name, CRS and nodata, the same shape h' by w' and
    the same pixel in every cell. *)
Theorem windows_compose (E : Externals) (b : Band.t)
    (y x h w y' x' h' w' : Z) :
  readable b ->
  0 <= y' -> 0 <= x' -> 0 < h' -> 0 < w' -> y' + h' <= h -> x' + w' <= w ->
  exists s1 s2 s3,
    Band.sample E b y x h w = Ok s1 /\
    BandSample.sample E s1 y' x' h' w' = Ok s2 /\
    Band.sample E b (y + y') (x + x') h' w' = Ok s3 /\
    BandSample.name s2 = BandSample.name s3 /\
    BandSample.crs s2 = BandSample.crs s3 /\
    BandSample.nodata s2 = BandSample.nodata s3 /\
    BandSample.height s2 = h' /\ BandSample.width s2 = w' /\
    BandSample.height s3 = h' /\ BandSample.width s3 = w' /\
    forall i j : nat,
      Z.of_nat i < h' -> Z.of_nat j < w' ->
      np.cell2 (BandSample.numpy s2) i j = np.cell2 (BandSample.numpy s3) i j.
Proof.
  intros Hb Hy' Hx' Hh' Hw' Hyh Hxw.
  eexists _, _, _. split; [apply Band_sample_ok, Hb|].
  split; [apply BandSample_sample_ok; apply Hb|].
  split; [apply Band_sample_ok, Hb|].
  unfold BandSample.name, BandSample.crs, BandSample.nodata,
    BandSample.transform, BandSample.height, BandSample.width, BandSample.numpy.
  cbn [BandSample._name BandSample._crs BandSample._nodata
       BandSample._transform BandSample._raster].
  split; [reflexivity|]. split; [reflexivity|]. split; [reflexivity|].
  unfold np.slice2.
  rewrite (slice_bounds_nonneg _ y' h'), (slice_bounds_nonneg _ x' w');
    try assumption; try (unfold np.shape_at; lia).
  unfold np.shape_at. cbn [np.shape nth].
  split; [lia|]. split; [lia|]. split; [lia|]. split; [lia|].
  intros i j Hi Hj.
  rewrite cell2_tabulate2 by lia.
  destruct Hb as [Hcount _].
  rewrite !Band_sample_cell by (try exact Hcount; lia).
  f_equal; lia.
Qed.

Lemma windows_compose_witness :
  exists s1 s2 s3,
    Band.sample Demo.externals Demo.band 90 90 20 20 = Ok s1 /\
    BandSample.sample Demo.externals s1 5 5 10 10 = Ok s2 /\
    Band.sample Demo.externals Demo.band 95 95 10 10 = Ok s3 /\
    forall i j : nat,
      Z.of_nat i < 10 -> Z.of_nat j < 10 ->
      np.cell2 (BandSample.numpy s2) i j = np.cell2 (BandSample.numpy s3) i j.
Proof.
  destruct (windows_compose Demo.externals Demo.band 90 90 20 20 5 5 10 10)
    as (s1 & s2 & s3 & H1 & H2 & H3 & _ & _ & _ & _ & _ & _ & _ & Hcells);
    [split; reflexivity | lia | lia | lia | lia | lia | lia |].
  exists s1, s2, s3. repeat split; assumption.
Defined.

(** ** Reading a whole file *)

Lemma boundless_pixel_inside (rd : reader) (row col : Z) (fill : Q) :
  0 <= row < m_height (ds_meta (rd_ds rd)) ->
  0 <= col < m_width (ds_meta (rd_ds rd)) ->
  boundless_pixel rd row col fill = ds_pixel (rd_ds rd) 0 row col.
Proof.
  intros Hrow Hcol. unfold boundless_pixel.
  destruct (Z.leb_spec 0 row); [|lia].
  destruct (Z.ltb_spec row (m_height (ds_meta (rd_ds rd)))); [|lia].
  destruct (Z.leb_spec 0 col); [|lia].
  destruct (Z.ltb_spec col (m_width (ds_meta (rd_ds rd)))); [|lia].
  reflexivity.
Qed.

Lemma boundless_pixel_outside (rd : reader) (row col : Z) (fill : Q) :
  ~ (0 <= row < m_height (ds_meta (rd_ds rd)) /\
     0 <= col < m_width (ds_meta (rd_ds rd))) ->
  boundless_pixel rd row col fill = fill.
Proof.
  intros Hout. unfold boundless_pixel.
  destruct (Z.leb_spec 0 row); [|reflexivity].
  destruct (Z.ltb_spec row (m_height (ds_meta (rd_ds rd)))); [|reflexivity].
  destruct (Z.leb_spec 0 col); [|reflexivity].
  destruct (Z.ltb_spec col (m_width (ds_meta (rd_ds rd)))); [|reflexivity].
  exfalso. apply Hout. lia.
Qed.

(** X4. [Band.numpy()] returns the whole raster: an array of height by
    width cells whose cell (i, j) is pixel (i, j) of band 1 of the file. *)
Theorem Band_numpy_is_the_raster (E : Externals) (b : Band.t) :
  readable b -> 0 <= Band.height b -> 0 <= Band.width b ->
  exists arr,
    Band.numpy E b = Ok arr /\
    np.shape arr = [Z.to_nat (Band.height b); Z.to_nat (Band.width b)] /\
    forall i j : nat,
      Z.of_nat i < Band.height b -> Z.of_nat j < Band.width b ->
      np.cell2 arr i j
      = ds_pixel (rd_ds (Band._band b)) 0 (Z.of_nat i) (Z.of_nat j).
Proof.
  intros Hb HH HW. unfold Band.numpy. rewrite Band_sample_ok by exact Hb.
  cbn [rbind BandSample.numpy BandSample._raster]. eexists.
  split; [reflexivity|]. split; [cbn [np.shape]; repeat f_equal; lia|].
  intros i j Hi Hj. destruct Hb as [Hcount _].
  rewrite Band_sample_cell by (try exact Hcount; lia).
  apply boundless_pixel_inside; unfold Band.height, Band.width, Band.meta in *; lia.
Qed.

Lemma Band_numpy_is_the_raster_witness :
  exists arr,
    Band.numpy Demo.externals Demo.band = Ok arr /\
    np.shape arr = [100%nat; 100%nat] /\
    np.cell2 arr 3 4 = ds_pixel Demo.image 0 3 4.
Proof.
  destruct (Band_numpy_is_the_raster Demo.externals Demo.band)
    as (arr & Harr & Hshape & Hcells);
    [split; reflexivity
    |change (Band.height Demo.band) with 100; lia
    |change (Band.width Demo.band) with 100; lia |].
  exists arr. split; [exact Harr|]. split; [exact Hshape|].
  apply (Hcells 3%nat 4%nat).
  - change (Band.height Demo.band) with 100. lia.
  - change (Band.width Demo.band) with 100. lia.
Defined.

(** X5. [BandSample.from_file(fp)] opens the file and asks for the window
    [sample(0, 0, band.width, band.height)], whose arguments are in the
    order (y, x, height, width): the sample it returns has as many rows as
    the file has columns and as many columns as the file has rows. Its cell
    (i, j) is pixel (i, j) of the file where the file has one, and the fill
    value elsewhere. No file is changed. On a path that does not exist the
    call raises the codec's I/O error and leaves the world as it was. *)
Theorem from_file_swaps_height_and_width (E : Externals) (fp : string)
    (w : world) :
  (forall ds : dataset,
      fs w !! fp = Some ds ->
      m_count (ds_meta ds) = 1 -> is_valid (m_crs (ds_meta ds)) = true ->
      0 <= m_height (ds_meta ds) -> 0 <= m_width (ds_meta ds) ->
      exists s w',
        BandSample_from_file E fp w = (Ok s, w') /\
        BandSample.height s = m_width (ds_meta ds) /\
        BandSample.width s = m_height (ds_meta ds) /\
        fs w' = fs w /\ trace w' = trace w ++ [EvOpen fp] /\
        forall i j : nat,
          Z.of_nat i < m_width (ds_meta ds) ->
          Z.of_nat j < m_height (ds_meta ds) ->
          (Z.of_nat i < m_height (ds_meta ds) ->
           Z.of_nat j < m_width (ds_meta ds) ->
           np.cell2 (BandSample.numpy s) i j
           = ds_pixel ds 0 (Z.of_nat i) (Z.of_nat j)) /\
          (m_height (ds_meta ds) <= Z.of_nat i \/
           m_width (ds_meta ds) <= Z.of_nat j ->
           np.cell2 (BandSample.numpy s) i j
           = match m_nodata (ds_meta ds) with Some v => v | None => 0%Q end)) /\
  (fs w !! fp = None ->
   BandSample_from_file E fp w = (Raise RasterioIOError, w)).
Proof.
  split.
  - intros ds Hfp Hcount Hvalid HH HW. unfold BandSample_from_file.
    rewrite (bind_ok _ _ _ _ _ (Band_init_ok fp ds w Hfp)).
    set (b := {| Band._band := mkReader fp ds; Band._tmp_file := false |}).
    assert (Hb : readable b) by (split; assumption).
    unfold lift. rewrite Band_sample_ok by exact Hb.
    eexists _, _. split; [reflexivity|].
    unfold BandSample.height, BandSample.width, BandSample.numpy, np.shape_at.
    cbn [BandSample._raster np.shape nth fs trace].
    change (Band.width b) with (m_width (ds_meta ds)).
    change (Band.height b) with (m_height (ds_meta ds)).
    split; [lia|]. split; [lia|]. split; [reflexivity|]. split; [reflexivity|].
    intros i j Hi Hj.
    rewrite (Band_sample_cell b 0 0 (m_width (ds_meta ds)) (m_height (ds_meta ds)))
      by (try exact Hcount; lia).
    split.
    + intros Hi' Hj'. apply boundless_pixel_inside; cbn; lia.
    + intros Hout. apply boundless_pixel_outside. cbn. lia.
  - intros Hfp. unfold BandSample_from_file, bind, Band.__init__, bind,
      rasterio_open. rewrite Hfp. reflexivity.
Qed.

Lemma from_file_swaps_height_and_width_witness :
  exists s w',
    BandSample_from_file Demo.externals Strip.path Strip.disk = (Ok s, w') /\
    BandSample.height s = 3 /\ BandSample.width s = 2 /\
    np.cell2 (BandSample.numpy s) 2 1 = (- (1))%Q.
Proof.
  destruct (from_file_swaps_height_and_width Demo.externals Strip.path
              Strip.disk) as [Hopen _].
  destruct (Hopen Strip.image) as (s & w' & Hs & Hh & Hw & _ & _ & Hcells);
    [reflexivity | reflexivity | reflexivity | cbn; lia | cbn; lia |].
  exists s, w'. split; [exact Hs|]. split; [exact Hh|]. split; [exact Hw|].
  destruct (Hcells 2%nat 1%nat) as [_ Hfill]; [cbn; lia | cbn; lia |].
  apply Hfill. cbn. lia.
Defined.

(** ** Destroying twice *)

(** X6. Destroying a temporary band a second time fails: the first
    [__del__] closes the handle and removes the file, the second closes the
    handle again and then raises [FileNotFoundError] from [os.remove],
    the files being left as the first call left them. *)
Theorem second_destruction_raises (b : Band.t) (w : world) :
  Band._tmp_file b = true ->
  is_Some (fs w !! rd_name (Band._band b)) ->
  exists w1 w2,
    Band.__del__ b w = (Ok tt, w1) /\
    Band.__del__ b w1 = (Raise FileNotFoundError, w2) /\
    fs w2 = fs w1 /\
    trace w2 = trace w1 ++ [EvClose (rd_name (Band._band b))].
Proof.
  intros Hflag Hfile.
  destruct (del_temporary b w Hflag Hfile) as (w1 & Hdel & _ & Hgone & _).
  exists w1. eexists. split; [exact Hdel|].
  unfold Band.__del__. rewrite bind_emit, Hflag. unfold os_remove.
  cbn [fs]. rewrite Hgone. repeat split.
Qed.

Lemma second_destruction_raises_witness :
  exists w1 w2,
    Band.__del__ Strip.scratch Strip.disk = (Ok tt, w1) /\
    Band.__del__ Strip.scratch w1 = (Raise FileNotFoundError, w2).
Proof.
  destruct (second_destruction_raises Strip.scratch Strip.disk)
    as (w1 & w2 & H1 & H2 & _); [reflexivity | now eexists |].
  now exists w1, w2.
Defined.

(** ** What the band factories write *)

Lemma bind_cases {A B : Type} (m : M A) (k : A -> M B) (w w' : world)
    (r : result B) :
  bind m k w = (r, w') ->
  (exists x w1, m w = (Ok x, w1) /\ k x w1 = (r, w')) \/
  (exists err, m w = (Raise err, w') /\ r = Raise err).
Proof.
  unfold bind. destruct (m w) as [[x|err] w1]; intros Hk.
  - left. now exists x, w1.
  - right. injection Hk as <- <-. now exists err.
Qed.

Lemma fs_same_except_refl (path : string) (w w' : world) :
  fs w' = fs w -> fs_same_except path w w'.
Proof. intros Hfs q _. now rewrite Hfs. Qed.

Lemma fs_same_except_trans (path : string) (w1 w2 w3 : world) :
  fs_same_except path w1 w2 -> fs_same_except path w2 w3 ->
  fs_same_except path w1 w3.
Proof. intros H12 H23 q Hq. now rewrite H23, H12. Qed.

Lemma lift_cases {A : Type} (r0 r : result A) (w w' : world) :
  lift r0 w = (r, w') -> r = r0 /\ w' = w.
Proof. unfold lift. now intros [= <- <-]. Qed.

Lemma destination_target (E : Externals) (b : Band.t) (fp : option string)
    (kind : string) (w : world) :
  exists w1,
    Band.destination E b fp kind w = (Ok (target_path E b fp kind w), w1) /\
    fs w1 = fs w /\ trace w1 = trace w.
Proof. destruct fp as [p|]; eexists; repeat split. Qed.

Lemma target_has_directory (E : Externals) (b : Band.t) (fp : option string)
    (kind : string) (w : world) :
  has_directory fp -> dirname (target_path E b fp kind w) <> EmptyString.
Proof.
  intros Hfp. destruct (destination_target E b fp kind w) as (w1 & Hd & _).
  exact (destination_has_directory E _ _ _ _ _ _ Hfp Hd).
Qed.

Lemma makedirs_frame (dir : string) (w w' : world) (r : result unit) :
  os_makedirs dir w = (r, w') -> fs w' = fs w.
Proof. destruct dir; intros [= <- <-]; reflexivity. Qed.

Lemma write_warped_frame (E : Externals) (b : Band.t) (fp : string)
    (kwargs : metadata) (dst_transform : Affine) (dst_crs : CRS)
    (interpolation : string) (w w' : world) (r : result unit) :
  Band.write_warped E b fp kwargs dst_transform dst_crs interpolation w
  = (r, w') ->
  fs_same_except fp w w'.
Proof.
  unfold Band.write_warped.
  destruct ((0 <? m_width kwargs) && (0 <? m_height kwargs)).
  2: { intros [= <- <-]. now apply fs_same_except_refl. }
  rewrite bind_emit. unfold write_file at 1. unfold bind at 1.
  unfold closing. destruct (Resampling_getattr interpolation) as [x|err].
  - rewrite bind_lift_ok, bind_emit. unfold write_file. intros [= <- <-].
    intros q Hq. cbn [fs]. now rewrite !lookup_insert_ne by congruence.
  - rewrite bind_lift_raise. intros [= <- <-].
    intros q Hq. cbn [fs]. now rewrite lookup_insert_ne by congruence.
Qed.

Lemma reopen_frame (fp : string) (tmp_file : bool) (w w' : world)
    (r : result Band.t) :
  bind (Band.__init__ fp)
       (fun band => ret {| Band._band := Band._band band;
                           Band._tmp_file := tmp_file |}) w = (r, w') ->
  fs w' = fs w /\ forall b', r = Ok b' -> rd_name (Band._band b') = fp.
Proof.
  unfold Band.__init__, bind, rasterio_open.
  destruct (fs w !! fp) as [ds|]; cbn; intros [= <- <-]; cbn.
  - split; [reflexivity|]. now intros b' [= <-].
  - split; [reflexivity|]. discriminate.
Qed.

(** The steps both factories end with: make the directory, write and warp,
    open what was written. *)
Lemma factory_tail_frame (E : Externals) (b : Band.t) (path : string)
    (kwargs : metadata) (tr : Affine) (c : CRS) (interpolation : string)
    (tmp_file : bool) (w w0 w' : world) (r : result Band.t) :
  fs w0 = fs w ->
  (do_ Band.write_warped E b path kwargs tr c interpolation;
   do band <- Band.__init__ path;
   ret {| Band._band := Band._band band; Band._tmp_file := tmp_file |}) w0
  = (r, w') ->
  (forall b', r = Ok b' -> rd_name (Band._band b') = path) /\
  fs_same_except path w w'.
Proof.
  intros Hfs Hb.
  apply bind_cases in Hb as [([] & w4 & Hw & Hb) | (err & Hw & ->)].
  - apply write_warped_frame in Hw. apply reopen_frame in Hb as [Hfs' Hname].
    split; [exact Hname|].
    intros q Hq. now rewrite Hfs', (Hw q Hq), Hfs.
  - apply write_warped_frame in Hw. split; [discriminate|].
    intros q Hq. now rewrite (Hw q Hq), Hfs.
Qed.

(** X7. [Band.resample] and [Band.reproject] write at one path only,
    whatever their outcome: the [fp] given, or the temporary path made of
    the next random name. Every other file, the source included when it
    lies elsewhere, is as it was, and the band returned is open on that
    path. *)
Theorem factories_write_one_path (E : Externals) (b : Band.t)
    (fp : option string) (interpolation : string) (w w' : world)
    (r : result Band.t) :
  (forall dst_res,
      Band.resample E b dst_res fp interpolation w = (r, w') ->
      (forall b', r = Ok b' ->
                  rd_name (Band._band b') = target_path E b fp "resampled" w) /\
      fs_same_except (target_path E b fp "resampled" w) w w') /\
  (forall dst_crs dst,
      BandSample.resolve_crs E (Band.crs b) (Band.transform b)
                             (Band.height b, Band.width b) dst_crs = Ok dst ->
      Band.reproject E b dst_crs fp interpolation w = (r, w') ->
      (forall b', r = Ok b' ->
                  rd_name (Band._band b')
                  = target_path E b fp ("reprojected_" ++ crs_def dst) w) /\
      fs_same_except (target_path E b fp ("reprojected_" ++ crs_def dst) w)
                     w w').
Proof.
  assert (Hraise : forall (path : string) (err : exn) (w1 : world),
             fs w1 = fs w ->
             (forall b', @Raise Band.t err = Ok b' ->
                         rd_name (Band._band b') = path) /\
             fs_same_except path w w1).
  { intros path err w1 Hfs.
    split; [discriminate | now apply fs_same_except_refl]. }
  split.
  - intros dst_res. unfold Band.resample. intros Hb.
    destruct (destination_target E b fp "resampled" w) as (w1 & Hd & Hfs1 & _).
    rewrite (bind_ok _ _ _ _ _ Hd) in Hb.
    apply bind_cases in Hb as [([] & w2 & Hmk & Hb) | (err & Hmk & ->)];
      [|apply makedirs_frame in Hmk; apply Hraise; congruence].
    apply makedirs_frame in Hmk.
    apply bind_cases in Hb as [(width' & w3 & Hwd & Hb) | (err & Hwd & ->)];
      [|apply lift_cases in Hwd as [_ ->]; apply Hraise; congruence].
    apply lift_cases in Hwd as [_ ->].
    apply bind_cases in Hb as [(height' & w4 & Hht & Hb) | (err & Hht & ->)];
      [|apply lift_cases in Hht as [_ ->]; apply Hraise; congruence].
    apply lift_cases in Hht as [_ ->].
    eapply factory_tail_frame; [|exact Hb]. congruence.
  - intros dst_crs dst Hdst. unfold Band.reproject.
    rewrite Hdst, bind_lift_ok. intros Hb.
    destruct (negb (is_valid dst)).
    { injection Hb as <- <-. now apply Hraise. }
    destruct (destination_target E b fp ("reprojected_" ++ crs_def dst) w)
      as (w1 & Hd & Hfs1 & _).
    rewrite (bind_ok _ _ _ _ _ Hd) in Hb.
    apply bind_cases in Hb as [([] & w2 & Hmk & Hb) | (err & Hmk & ->)];
      [|apply makedirs_frame in Hmk; apply Hraise; congruence].
    apply makedirs_frame in Hmk.
    destruct (calculate_default_transform E _ _ _ _ _)
      as [[transform' width'] height'].
    eapply factory_tail_frame; [|exact Hb]. congruence.
Qed.

Lemma factories_write_one_path_witness :
  exists b' w',
    Band.resample Demo.externals Demo.band (2, 2)%Q None "nearest" Demo.disk
    = (Ok b', w') /\
    rd_name (Band._band b')
    = target_path Demo.externals Demo.band None "resampled" Demo.disk /\
    fs w' !! Demo.image_path = fs Demo.disk !! Demo.image_path.
Proof.
  destruct (Band_resample_ok Demo.externals Demo.band 2 2 None "nearest"
              Demo.disk R_nearest)
    as (path & pixels & w' & Hres & _ & _);
    [discriminate | discriminate | discriminate | discriminate | discriminate
    | reflexivity | reflexivity | reflexivity |].
  eexists _, w'. split; [exact Hres|].
  destruct (proj1 (factories_write_one_path Demo.externals Demo.band None
                     "nearest" Demo.disk w' _) _ Hres)
    as (Hname & Hframe).
  split; [now apply Hname|].
  apply Hframe. vm_compute. discriminate.
Defined.

Lemma Resampling_getattr_raise (name : string) (err : exn) :
  Resampling_getattr name = Raise err -> err = AttributeError.
Proof.
  unfold Resampling_getattr.
  repeat (destruct (String.eqb name _); [discriminate|]).
  now intros [= <-].
Qed.

Lemma not_identifier_getattr (name : string) :
  not_identifier name = true -> Resampling_getattr name = Raise AttributeError.
Proof.
  intros Hname. unfold Resampling_getattr.
  repeat match goal with
  | |- context [String.eqb name ?m] =>
      destruct (String.eqb_spec name m) as [Heq|_];
        [rewrite Heq in Hname; vm_compute in Hname; discriminate Hname|]
  end.
  reflexivity.
Qed.

Lemma Qdiv_zero_iff (x y : Q) :
  ~ (y == 0)%Q -> ((x / y == 0)%Q <-> (x == 0)%Q).
Proof.
  intros Hy. split; intros Hx.
  - rewrite <- (Qmult_div_r x y Hy), Hx. ring.
  - rewrite Hx. unfold Qdiv. ring.
Qed.

(** The size computed by [round(n / (r / res))], with both divisions
    checked. *)
Lemma scaled_round_result (n r res : Q) :
  (try ratio <- py_div r res; try q <- py_div n ratio; Ok (py_round q))
  = if Qeq_bool res 0 || Qeq_bool r 0 then Raise ZeroDivisionError
    else Ok (py_round (n / (r / res))).
Proof.
  unfold py_div. destruct (Qeq_bool res 0) eqn:Hres; [reflexivity|].
  cbn [rbind orb].
  assert (Hres' : ~ (res == 0)%Q).
  { intros H. apply Qeq_bool_iff in H. congruence. }
  destruct (Qeq_bool r 0) eqn:Hr.
  - apply Qeq_bool_iff in Hr.
    apply (Qdiv_zero_iff r res Hres') in Hr. apply Qeq_bool_iff in Hr.
    now rewrite Hr.
  - destruct (Qeq_bool (r / res) 0) eqn:Hq; [|reflexivity].
    apply Qeq_bool_iff in Hq. apply (Qdiv_zero_iff r res Hres') in Hq.
    apply Qeq_bool_iff in Hq. congruence.
Qed.

(** X8. [Band.resample] with an interpolation name that is no identifier,
    so that no attribute of [Resampling] has it, raises [AttributeError]
    after the destination was opened for writing: the directory was made,
    the file exists at the destination with the new metadata and no pixel
    written, its handle was closed on the way out, and no band is returned
    to own it. The destination has a directory to be made, no divisor is
    zero and the new size, rounded clear of ties, is positive. *)
Theorem resample_unknown_interpolation_leaves_file (E : Externals)
    (b : Band.t) (rx ry : Q) (fp : option string) (interpolation : string)
    (w : world) :
  has_directory fp ->
  ~ (rx == 0)%Q -> ~ (ry == 0)%Q ->
  ~ (fst (Band.res b) == 0)%Q -> ~ (snd (Band.res b) == 0)%Q ->
  clear_of_ties (inject_Z (Band.width b) / (rx / fst (Band.res b))) ->
  clear_of_ties (inject_Z (Band.height b) / (ry / snd (Band.res b))) ->
  0 < py_round (inject_Z (Band.width b) / (rx / fst (Band.res b))) ->
  0 < py_round (inject_Z (Band.height b) / (ry / snd (Band.res b))) ->
  not_identifier interpolation = true ->
  exists kwargs w',
    Band.resample E b (rx, ry) fp interpolation w = (Raise AttributeError, w') /\
    fs w' !! target_path E b fp "resampled" w = Some (mkDataset kwargs []) /\
    m_width kwargs
    = py_round (inject_Z (Band.width b) / (rx / fst (Band.res b))) /\
    m_height kwargs
    = py_round (inject_Z (Band.height b) / (ry / snd (Band.res b))) /\
    trace w'
    = trace w ++ [EvMakedirs (dirname (target_path E b fp "resampled" w));
                  EvCreate (target_path E b fp "resampled" w);
                  EvClose (target_path E b fp "resampled" w)].
Proof.
  intros Hfp Hrx Hry Hresx Hresy _ _ Hwpos Hhpos Hname.
  apply not_identifier_getattr in Hname.
  unfold Band.resample.
  destruct (destination_target E b fp "resampled" w) as (w1 & Hd & _ & Htr).
  pose proof (target_has_directory E b fp "resampled" w Hfp) as Hdir.
  set (path := target_path E b fp "resampled" w) in *.
  rewrite (bind_ok _ _ _ _ _ Hd), (bind_makedirs _ _ _ Hdir). cbn [fst snd].
  rewrite (py_div_ok rx) by assumption. cbn [rbind].
  rewrite py_div_ok by (apply Qdiv_nonzero; assumption). cbn [rbind].
  rewrite bind_lift_ok.
  rewrite (py_div_ok ry) by assumption. cbn [rbind].
  rewrite py_div_ok by (apply Qdiv_nonzero; assumption). cbn [rbind].
  rewrite bind_lift_ok.
  unfold Band.write_warped. cbn [Band.update_meta m_width m_height].
  destruct (Z.ltb_spec 0 (py_round (inject_Z (Band.width b)
                                    / (rx / fst (Band.res b)))));
    [|lia].
  destruct (Z.ltb_spec 0 (py_round (inject_Z (Band.height b)
                                    / (ry / snd (Band.res b)))));
    [|lia].
  cbn [andb]. unfold bind at 1. rewrite bind_emit.
  unfold write_file at 1. unfold bind at 1. unfold closing.
  rewrite Hname, bind_lift_raise.
  eexists _, _. split; [reflexivity|].
  cbn [fs trace]. split; [apply lookup_insert_eq|].
  split; [reflexivity|]. split; [reflexivity|].
  now rewrite Htr, <- !app_assoc.
Qed.

Lemma resample_unknown_interpolation_leaves_file_witness :
  exists kwargs w',
    Band.resample Demo.externals Demo.band (2, 2)%Q
                  (Some "/data/out.tif"%string) "cubic-spline" Demo.disk
    = (Raise AttributeError, w') /\
    fs w' !! "/data/out.tif"%string = Some (mkDataset kwargs []) /\
    m_width kwargs = 50 /\ m_height kwargs = 50.
Proof.
  destruct (resample_unknown_interpolation_leaves_file Demo.externals Demo.band
              2 2 (Some "/data/out.tif"%string) "cubic-spline" Demo.disk)
    as (kwargs & w' & Hres & Hfile & Hw & Hh & _);
    [intros p [= <-]; vm_compute; split; discriminate
    | discriminate | discriminate | discriminate | discriminate
    | reflexivity | reflexivity | reflexivity | reflexivity | reflexivity |].
  exists kwargs, w'. split; [exact Hres|]. split; [exact Hfile|].
  split; [exact Hw | exact Hh].
Defined.

(** X9. [Band.resample] raises [ZeroDivisionError] when a component of
    [dst_res] or of the resolution of the band is zero. The directory of the
    destination, which has one, was made by then, and no file was created
    or changed. *)
Theorem resample_zero_size_raises (E : Externals) (b : Band.t) (rx ry : Q)
    (fp : option string) (interpolation : string) (w : world) :
  has_directory fp ->
  (rx == 0)%Q \/ (ry == 0)%Q \/
  (fst (Band.res b) == 0)%Q \/ (snd (Band.res b) == 0)%Q ->
  exists w',
    Band.resample E b (rx, ry) fp interpolation w
    = (Raise ZeroDivisionError, w') /\
    fs w' = fs w /\
    trace w'
    = trace w ++ [EvMakedirs (dirname (target_path E b fp "resampled" w))].
Proof.
  intros Hfp Hzero. unfold Band.resample.
  destruct (destination_target E b fp "resampled" w) as (w1 & Hd & Hfs & Htr).
  pose proof (target_has_directory E b fp "resampled" w Hfp) as Hdir.
  rewrite (bind_ok _ _ _ _ _ Hd), (bind_makedirs _ _ _ Hdir). cbn [fst snd].
  rewrite !scaled_round_result.
  destruct (Qeq_bool (fst (Band.res b)) 0 || Qeq_bool rx 0) eqn:Hx.
  - rewrite bind_lift_raise. eexists. split; [reflexivity|].
    cbn [fs trace]. now rewrite Hfs, Htr.
  - rewrite bind_lift_ok.
    destruct (Qeq_bool (snd (Band.res b)) 0 || Qeq_bool ry 0) eqn:Hy.
    + rewrite bind_lift_raise. eexists. split; [reflexivity|].
      cbn [fs trace]. now rewrite Hfs, Htr.
    + exfalso. apply orb_false_elim in Hx as [Hx1 Hx2].
      apply orb_false_elim in Hy as [Hy1 Hy2].
      destruct Hzero as [H | [H | [H | H]]]; apply Qeq_bool_iff in H; congruence.
Qed.

Lemma resample_zero_size_raises_witness :
  exists w',
    Band.resample Demo.externals Demo.band (0, 2)%Q
                  (Some "/data/out.tif"%string) "nearest" Demo.disk
    = (Raise ZeroDivisionError, w') /\
    fs w' = fs Demo.disk /\
    trace w' = trace Demo.disk ++ [EvMakedirs "/data"].
Proof.
  apply (resample_zero_size_raises Demo.externals Demo.band 0 2
           (Some "/data/out.tif"%string) "nearest" Demo.disk).
  - intros p [= <-]. vm_compute. split; discriminate.
  - left. reflexivity.
Defined.

(** X21. A destination without a directory part, such as a bare file
    name, stops both factories: [os.path.dirname(fp)] is the empty path,
    [os.makedirs] raises [FileNotFoundError] for it, and nothing was made,
    written or opened by then. [Band.reproject] gets there once the
    destination CRS has resolved to a valid one. *)
Theorem bare_file_name_raises (E : Externals) (b : Band.t) (p : string)
    (interpolation : string) (w : world) :
  dirname p = EmptyString ->
  (forall dst_res,
      Band.resample E b dst_res (Some p) interpolation w
      = (Raise FileNotFoundError, w)) /\
  (forall dst_crs dst,
      BandSample.resolve_crs E (Band.crs b) (Band.transform b)
                             (Band.height b, Band.width b) dst_crs = Ok dst ->
      is_valid dst = true ->
      Band.reproject E b dst_crs (Some p) interpolation w
      = (Raise FileNotFoundError, w)).
Proof.
  intros Hdir. split.
  - intros dst_res. unfold Band.resample. cbn [Band.destination].
    unfold bind at 1, ret at 1. rewrite Hdir. reflexivity.
  - intros dst_crs dst Hdst Hvalid. unfold Band.reproject.
    rewrite Hdst, bind_lift_ok, Hvalid. cbn [negb Band.destination].
    unfold bind at 1, ret at 1. rewrite Hdir. reflexivity.
Qed.

Lemma bare_file_name_raises_witness :
  Band.resample Demo.externals Demo.band (2, 2)%Q (Some "out.tif"%string)
                "nearest" Demo.disk
  = (Raise FileNotFoundError, Demo.disk) /\
  Band.reproject Demo.externals Demo.band (ArgCRS Demo.wgs84)
                 (Some "out.tif"%string) "nearest" Demo.disk
  = (Raise FileNotFoundError, Demo.disk).
Proof.
  destruct (bare_file_name_raises Demo.externals Demo.band "out.tif"
              "nearest" Demo.disk eq_refl) as [Hresample Hreproject].
  split; [apply Hresample|].
  apply (Hreproject (ArgCRS Demo.wgs84) Demo.wgs84); reflexivity.
Defined.

(** ** Effects of the in-memory operations *)

(** What follows the choice of the target in both in-memory warps:
    allocate, look the interpolation up, warp, build the sample. *)
Lemma warp_tail_effects (E : Externals) (s : BandSample.t) (name : string)
    (dims : list Z) (interpolation : string) (dst_transform : Affine)
    (dst_crs : CRS) (w w' : world) (r : result BandSample.t) :
  (do new_raster <- lift (np.empty dims);
   do resampling <- lift (Resampling_getattr interpolation);
   do new_raster <- BandSample.warp E (BandSample._raster s) new_raster
                      (BandSample.transform s) (BandSample.crs s)
                      dst_transform dst_crs resampling;
   lift (BandSample.__init__ E name new_raster (ArgCRS dst_crs)
                             (ArgAffine dst_transform) (BandSample.nodata s)))
    w = (r, w') ->
  (w' = w /\ forall s', r <> Ok s') \/
  w' = {| fs := fs w; names_drawn := names_drawn w;
          trace := trace w ++ [EvWarp] |}.
Proof.
  intros Hr.
  apply bind_cases in Hr as [(empty & w1 & Hempty & Hr) | (err & Hempty & ->)];
    [|apply lift_cases in Hempty as [_ ->]; left; split; [reflexivity | discriminate]].
  apply lift_cases in Hempty as [_ ->].
  apply bind_cases in Hr as [(resampling & w1 & Hres & Hr) | (err & Hres & ->)];
    [|apply lift_cases in Hres as [_ ->]; left; split; [reflexivity | discriminate]].
  apply lift_cases in Hres as [_ ->].
  unfold BandSample.warp in Hr. unfold bind at 1 in Hr.
  rewrite bind_emit in Hr. unfold ret in Hr.
  apply lift_cases in Hr as [_ ->]. now right.
Qed.

(** X10. The in-memory operations leave the disk alone. Whatever
    [BandSample.resample] or [BandSample.reproject] returns or raises, no
    file is created, changed or removed and no temporary name is drawn; the
    warp engine is called at most once, and exactly once when a sample is
    returned. *)
Theorem in_memory_operations_leave_the_disk (E : Externals)
    (s : BandSample.t) (interpolation : string) (w w' : world)
    (r : result BandSample.t) :
  (forall dst_res dst_shape,
      BandSample.resample E s dst_res dst_shape interpolation w = (r, w') ->
      (w' = w /\ forall s', r <> Ok s') \/
      w' = {| fs := fs w; names_drawn := names_drawn w;
              trace := trace w ++ [EvWarp] |}) /\
  (forall dst_crs,
      BandSample.reproject E s dst_crs interpolation w = (r, w') ->
      (w' = w /\ forall s', r <> Ok s') \/
      w' = {| fs := fs w; names_drawn := names_drawn w;
              trace := trace w ++ [EvWarp] |}).
Proof.
  split.
  - intros dst_res dst_shape. unfold BandSample.resample. intros Hr.
    apply bind_cases in Hr as [([th tw] & w1 & Ht & Hr) | (err & Ht & ->)];
      [|apply lift_cases in Ht as [_ ->]; left; split; [reflexivity | discriminate]].
    apply lift_cases in Ht as [_ ->].
    now apply warp_tail_effects in Hr.
  - intros dst_crs. unfold BandSample.reproject. intros Hr.
    apply bind_cases in Hr as [(dst & w1 & Hd & Hr) | (err & Hd & ->)];
      [|apply lift_cases in Hd as [_ ->]; left; split; [reflexivity | discriminate]].
    apply lift_cases in Hd as [_ ->].
    destruct (negb (is_valid dst)).
    { injection Hr as <- <-. left. split; [reflexivity | discriminate]. }
    destruct (calculate_default_transform E _ _ _ _ _) as [[dst_transform dst_width] dst_height].
    now apply warp_tail_effects in Hr.
Qed.

Lemma in_memory_operations_leave_the_disk_witness :
  exists s' w',
    BandSample.resample Demo.externals Demo.patch (Some (1 # 2, 1 # 4)%Q) None
                        "nearest" Demo.disk = (Ok s', w') /\
    BandSample.height s' = 8 /\ BandSample.width s' = 12 /\
    fs w' = fs Demo.disk /\ trace w' = trace Demo.disk ++ [EvWarp].
Proof.
  destruct (BandSample_resample_ok Demo.externals Demo.patch (1 # 2) (1 # 4)
              "nearest" Demo.disk R_nearest) as (s' & w' & Hs & Hh & Hw);
    [reflexivity | reflexivity | reflexivity | reflexivity |].
  exists s', w'. split; [exact Hs|]. split; [exact Hh|]. split; [exact Hw|].
  destruct (proj1 (in_memory_operations_leave_the_disk Demo.externals
                     Demo.patch "nearest" Demo.disk w' _) _ _ Hs)
    as [[_ Hno] | ->].
  - exfalso. now apply (Hno s').
  - split; reflexivity.
Defined.

(** ** What resampling and reprojecting keep *)

Lemma BandSample_init_inv (E : Externals) (name : string) (raster : np.ndarray)
    (c : CRS) (tr : Affine) (nodata : Q) (s : BandSample.t) :
  BandSample.__init__ E name raster (ArgCRS c) (ArgAffine tr) nodata = Ok s ->
  BandSample.name s = name /\ BandSample.crs s = c /\
  BandSample.transform s = tr /\ BandSample.nodata s = nodata /\
  band_shape_guard raster = Ok (BandSample.numpy s).
Proof.
  unfold BandSample.__init__. intros Hs.
  apply rbind_inv in Hs as (raster' & Hguard & Hs). cbn [rbind] in Hs.
  destruct (negb (is_valid c)); [discriminate Hs|].
  injection Hs as <-. now repeat split.
Qed.

(** X11. [BandSample.resample] changes the grid and nothing else: the
    sample it returns has the name, the CRS and the nodata value of its
    source; without [dst_res] it has the transform of the source too, and
    with neither [dst_res] nor [dst_shape] the same height and width. *)
Theorem resample_keeps_identity (E : Externals) (s : BandSample.t)
    (dst_res : option (Q * Q)) (dst_shape : option (Z * Z * Z))
    (interpolation : string) (w w' : world) (s' : BandSample.t) :
  BandSample.resample E s dst_res dst_shape interpolation w = (Ok s', w') ->
  BandSample.name s' = BandSample.name s /\
  BandSample.crs s' = BandSample.crs s /\
  BandSample.nodata s' = BandSample.nodata s /\
  (dst_res = None -> BandSample.transform s' = BandSample.transform s) /\
  (dst_res = None -> dst_shape = None ->
   BandSample.height s' = BandSample.height s /\
   BandSample.width s' = BandSample.width s).
Proof.
  intros Hs. pose proof (BandSample_resample_shape E _ _ _ _ _ _ _ Hs) as Hshape.
  unfold BandSample.resample in Hs.
  apply bind_inv in Hs as ([th tw] & w1 & _ & Hs).
  apply bind_inv in Hs as (empty & w2 & _ & Hs).
  apply bind_inv in Hs as (r & w3 & _ & Hs).
  apply bind_inv in Hs as (filled & w4 & _ & Hs).
  apply lift_inv in Hs as [Hs _].
  apply BandSample_init_inv in Hs as (Hname & Hcrs & Htr & Hnodata & _).
  split; [exact Hname|]. split; [exact Hcrs|]. split; [exact Hnodata|]. split.
  - intros ->. exact Htr.
  - intros -> ->. exact Hshape.
Qed.

Lemma resample_keeps_identity_witness :
  exists s' w',
    BandSample.resample Demo.externals Demo.tall_patch (Some (3, 5)%Q) None
                        "nearest" Demo.disk = (Ok s', w') /\
    BandSample.name s' = "tall"%string /\ BandSample.crs s' = Demo.wgs84.
Proof.
  destruct (BandSample_resample_ok Demo.externals Demo.tall_patch 3 5 "nearest"
              Demo.disk R_nearest) as (s' & w' & Hs & _);
    [reflexivity | reflexivity | reflexivity | reflexivity |].
  exists s', w'. split; [exact Hs|].
  destruct (resample_keeps_identity _ _ _ _ _ _ _ _ Hs) as (Hname & Hcrs & _).
  now split.
Defined.

(** X12. [BandSample.resample] with [dst_res] alone raises
    [ZeroDivisionError] when a component of [dst_res] is zero, before the
    destination is allocated and before the warp engine is called; with a
    [dst_shape] the same [dst_res] divides nothing and does not raise it. *)
Theorem sample_resample_zero_size_raises (E : Externals) (s : BandSample.t)
    (p q : Q) (interpolation : string) (w : world) :
  (p == 0)%Q \/ (q == 0)%Q ->
  BandSample.resample E s (Some (p, q)) None interpolation w
  = (Raise ZeroDivisionError, w) /\
  forall dst_shape r w',
    BandSample.resample E s (Some (p, q)) (Some dst_shape) interpolation w
    = (r, w') ->
    r <> Raise ZeroDivisionError.
Proof.
  intros Hzero. split.
  - unfold BandSample.resample. cbn [fst snd]. unfold py_div.
    destruct (Qeq_bool p 0) eqn:Hp; [reflexivity|]. cbn [rbind].
    destruct (Qeq_bool q 0) eqn:Hq; [reflexivity|].
    exfalso. destruct Hzero as [H | H]; apply Qeq_bool_iff in H; congruence.
  - intros [[d0 th] tw] r w'. unfold BandSample.resample. cbn [fst snd].
    rewrite bind_lift_ok. intros Hr.
    apply bind_cases in Hr as [(empty & w1 & _ & Hr) | (err & Hempty & ->)].
    2:{ apply lift_cases in Hempty as [Hempty _]. unfold np.empty in Hempty.
        destruct (forallb _ _); [discriminate Hempty|]. now injection Hempty as ->. }
    apply bind_cases in Hr as [(rs & w2 & _ & Hr) | (err & Hres & ->)].
    2:{ apply lift_cases in Hres as [Hres _]. symmetry in Hres.
        apply Resampling_getattr_raise in Hres as ->. discriminate. }
    apply bind_cases in Hr as [(filled & w3 & _ & Hr) | (err & Hwarp & ->)].
    2:{ unfold BandSample.warp in Hwarp. rewrite bind_emit in Hwarp.
        discriminate Hwarp. }
    apply lift_cases in Hr as [-> _]. unfold BandSample.__init__.
    destruct (band_shape_guard filled) as [raster'|err] eqn:Hguard; cbn [rbind].
    + destruct (negb (is_valid (BandSample.crs s))); discriminate.
    + unfold band_shape_guard in Hguard.
      repeat match type of Hguard with
             | match ?x with _ => _ end = _ => destruct x
             end; try discriminate Hguard; injection Hguard as <-; discriminate.
Qed.

Lemma sample_resample_zero_size_raises_witness :
  BandSample.resample Demo.externals Demo.patch (Some (0, 1)%Q) None
                      "nearest" Demo.disk
  = (Raise ZeroDivisionError, Demo.disk).
Proof.
  apply (sample_resample_zero_size_raises Demo.externals Demo.patch 0 1
           "nearest" Demo.disk).
  left. reflexivity.
Defined.

(** ** Reprojection *)

(** X13. [Band.reproject] to a CRS that resolves and is valid, with an
    interpolation the warp engine has, a destination that has a directory
    and a computed size that is positive, returns a band in that CRS whose
    transform, width and height are the ones the default-transform
    computation gave for the source CRS, size and bounds; nodata, dtype and
    band count are those of the source. The calls made are, in order:
    make the directory, create the file, warp, close the file, open it. *)
Theorem Band_reproject_grid (E : Externals) (b : Band.t) (dst_crs : crs_arg)
    (fp : option string) (interpolation : string) (w : world) (c : CRS)
    (r : Resampling) :
  BandSample.resolve_crs E (Band.crs b) (Band.transform b)
                         (Band.height b, Band.width b) dst_crs = Ok c ->
  is_valid c = true ->
  Resampling_getattr interpolation = Ok r ->
  has_directory fp ->
  let computed := calculate_default_transform E (Band.crs b) c (Band.width b)
                    (Band.height b) (Band.bounds b) in
  0 < snd (fst computed) -> 0 < snd computed ->
  exists b' w',
    Band.reproject E b dst_crs fp interpolation w = (Ok b', w') /\
    Band.crs b' = c /\
    Band.transform b' = fst (fst computed) /\
    Band.width b' = snd (fst computed) /\
    Band.height b' = snd computed /\
    Band.nodata b' = Band.nodata b /\
    Band.dtype b' = Band.dtype b /\
    Band.count b' = Band.count b /\
    Band._tmp_file b' = flag_for fp /\
    rd_name (Band._band b')
    = target_path E b fp ("reprojected_" ++ crs_def c) w /\
    trace w' = trace w ++ [EvMakedirs (dirname (rd_name (Band._band b')));
                           EvCreate (rd_name (Band._band b')); EvWarp;
                           EvClose (rd_name (Band._band b'));
                           EvOpen (rd_name (Band._band b'))].
Proof.
  intros Hdst Hvalid Hr Hfp computed Hwpos Hhpos. unfold Band.reproject.
  rewrite Hdst, bind_lift_ok, Hvalid. cbn [negb].
  destruct (destination_target E b fp ("reprojected_" ++ crs_def c)%string w)
    as (w1 & Hd & _ & Htr).
  pose proof (target_has_directory E b fp ("reprojected_" ++ crs_def c)%string
                w Hfp) as Hdir.
  set (path := target_path E b fp ("reprojected_" ++ crs_def c)%string w) in *.
  rewrite (bind_ok _ _ _ _ _ Hd), (bind_makedirs _ _ _ Hdir).
  fold computed. destruct computed as [[transform' width'] height'].
  cbn [fst snd] in Hwpos, Hhpos.
  match goal with
  | |- context [Band.write_warped E b path ?kw ?t ?cr interpolation] =>
      destruct (write_warped_ok E b path kw t cr interpolation r
                  {| fs := fs w1; names_drawn := names_drawn w1;
                     trace := trace w1 ++ [EvMakedirs (dirname path)] |}
                  Hwpos Hhpos Hr)
        as (pixels & Hw)
  end.
  rewrite (bind_ok _ _ _ _ _ Hw).
  erewrite (bind_ok (Band.__init__ path));
    [|apply Band_init_ok; cbn [fs]; apply lookup_insert_eq].
  eexists _, _. split; [reflexivity|].
  unfold Band.crs, Band.transform, Band.width, Band.height, Band.nodata,
    Band.dtype, Band.count, Band.meta.
  cbn [Band._band Band._tmp_file rd_ds rd_name ds_meta Band.update_meta
       m_crs m_transform m_width m_height m_nodata m_dtype m_count
       fst snd trace].
  do 7 (split; [reflexivity|]).
  split; [now destruct fp|]. split; [reflexivity|].
  rewrite Htr, <- !app_assoc. reflexivity.
Qed.

Lemma Band_reproject_grid_witness :
  exists b' w',
    Band.reproject Demo.externals Strip.band (ArgStr "utm") None "cubic"
                   Strip.disk = (Ok b', w') /\
    Band.crs b' = mkCRS "EPSG:32637" true /\
    Band.width b' = 3 /\ Band.height b' = 2 /\
    Band.nodata b' = Some (- (1))%Q /\
    Band._tmp_file b' = true.
Proof.
  destruct (Band_reproject_grid Demo.externals Strip.band (ArgStr "utm") None
              "cubic" Strip.disk (mkCRS "EPSG:32637" true) R_cubic)
    as (b' & w' & Hb & Hcrs & _ & Hw & Hh & Hnd & _ & _ & Hflag & _);
    [reflexivity | reflexivity | reflexivity | discriminate
    | reflexivity | reflexivity |].
  exists b', w'. repeat split; assumption.
Defined.



(** ** Size and place of the tiles *)

Lemma slice2_shape (arr : np.ndarray) (y x h w : Z) :
  0 <= y -> 0 <= x -> 0 < h -> 0 < w ->
  np.shape_at (np.slice2 arr y (y + h) x (x + w)) 0
  = Z.min h (Z.max 0 (np.shape_at arr 0 - y)) /\
  np.shape_at (np.slice2 arr y (y + h) x (x + w)) 1
  = Z.min w (Z.max 0 (np.shape_at arr 1 - x)).
Proof.
  intros Hy Hx Hh Hw.
  assert (HH : 0 <= np.shape_at arr 0) by (unfold np.shape_at; lia).
  assert (HW : 0 <= np.shape_at arr 1) by (unfold np.shape_at; lia).
  unfold np.slice2.
  rewrite (slice_bounds_nonneg (np.shape_at arr 0) y h) by assumption.
  rewrite (slice_bounds_nonneg (np.shape_at arr 1) x w) by assumption.
  set (H := np.shape_at arr 0) in *. set (W := np.shape_at arr 1) in *.
  unfold np.shape_at. cbn [np.shape nth]. split; lia.
Qed.

Lemma Forall2_with_In {A B : Type} (R : A -> B -> Prop) (l : list A)
    (l' : list B) :
  Forall2 R l l' -> Forall2 (fun x y => In x l /\ R x y) l l'.
Proof.
  induction 1 as [|x y l l' Hxy _ IH]; constructor.
  - split; [now left | exact Hxy].
  - eapply Forall2_impl; [exact IH|]. cbn. intros a b0 [Ha Hab].
    split; [now right | exact Hab].
Qed.

Lemma Forall2_Forall_r {A B : Type} (R : A -> B -> Prop) (P : B -> Prop)
    (l : list A) (l' : list B) :
  (forall x y, R x y -> P y) -> Forall2 R l l' -> Forall P l'.
Proof. intros HRP. induction 1; constructor; eauto. Qed.

(** X15. The tiles of a band all have the full tile size, height h and
    width w, the ones on the bottom and right edges being filled up. The
    tiles of a sample are cut at its edges: the tile at origin (x, y) has
    min(h, H - y) rows and min(w, W - x) columns, and none is empty. *)
Theorem tile_sizes (E : Externals) (w h : Z) :
  0 < w -> 0 < h ->
  (forall b : Band.t,
      readable b -> 0 <= Band.width b -> 0 <= Band.height b ->
      exists samples,
        Band.generate_samples E b w h = (samples, None) /\
        Forall (fun t => BandSample.height t = h /\ BandSample.width t = w)
               samples) /\
  (forall s : BandSample.t,
      is_valid (BandSample.crs s) = true ->
      exists origins samples,
        tile_origins (BandSample.width s) (BandSample.height s) w h
        = Ok origins /\
        BandSample.generate_samples E s w h = (samples, None) /\
        Forall2 (fun o t =>
                   BandSample.height t = Z.min h (BandSample.height s - snd o) /\
                   BandSample.width t = Z.min w (BandSample.width s - fst o) /\
                   0 < BandSample.height t /\ 0 < BandSample.width t)
                origins samples).
Proof.
  intros Hw Hh. split.
  - intros b Hb HW HH. unfold Band.generate_samples.
    rewrite tile_origins_grid by assumption.
    destruct (yield_each_ok (fun '(x, y) => Band.sample E b y x h w)
                (tile_grid (Z.to_nat (ceil_div (Band.width b) w))
                           (Z.to_nat (ceil_div (Band.height b) h)) w h))
      as (samples & Hgen & Hfa).
    { intros [x y] _. eexists. apply Band_sample_ok, Hb. }
    exists samples. split; [exact Hgen|].
    eapply Forall2_Forall_r; [|exact Hfa].
    intros [x y] t Ht. cbn in Ht. rewrite Band_sample_ok in Ht by exact Hb.
    injection Ht as <-. unfold BandSample.height, BandSample.width, np.shape_at.
    cbn [BandSample._raster np.shape nth]. lia.
  - intros s Hvalid.
    assert (HW : 0 <= BandSample.width s)
      by (unfold BandSample.width, np.shape_at; lia).
    assert (HH : 0 <= BandSample.height s)
      by (unfold BandSample.height, np.shape_at; lia).
    pose proof (ceil_div_nonneg _ w Hw HW) as Hnx.
    pose proof (ceil_div_nonneg _ h Hh HH) as Hny.
    unfold BandSample.generate_samples.
    rewrite tile_origins_grid by assumption.
    destruct (yield_each_ok (fun '(x, y) => BandSample.sample E s y x h w)
                (tile_grid (Z.to_nat (ceil_div (BandSample.width s) w))
                           (Z.to_nat (ceil_div (BandSample.height s) h)) w h))
      as (samples & Hgen & Hfa).
    { intros [x y] _. eexists. apply BandSample_sample_ok, Hvalid. }
    eexists _, samples. split; [reflexivity|]. split; [exact Hgen|].
    apply Forall2_with_In in Hfa.
    eapply Forall2_impl; [exact Hfa|].
    intros [x y] t [Hin Ht]. cbn in Ht.
    apply in_tile_grid in Hin as (i & j & Hi & Hj & [= -> ->]).
    pose proof (ceil_div_within _ w (Z.of_nat i) Hw HW ltac:(lia)) as Hx.
    pose proof (ceil_div_within _ h (Z.of_nat j) Hh HH ltac:(lia)) as Hy.
    rewrite BandSample_sample_ok in Ht by exact Hvalid.
    injection Ht as <-. cbn [fst snd].
    unfold BandSample.height at 1 3, BandSample.width at 1 3.
    cbn [BandSample._raster].
    destruct (slice2_shape (BandSample._raster s) (Z.of_nat j * h)
                (Z.of_nat i * w) h w) as [-> ->]; try lia.
    fold (BandSample.height s). fold (BandSample.width s). lia.
Qed.

Lemma tile_sizes_witness :
  (exists samples,
      Band.generate_samples Demo.externals Strip.band 2 2 = (samples, None) /\
      Forall (fun t => BandSample.height t = 2 /\ BandSample.width t = 2)
             samples) /\
  (exists origins samples,
      tile_origins 3 4 2 3 = Ok origins /\
      BandSample.generate_samples Demo.externals Demo.patch 2 3
      = (samples, None) /\
      Forall2 (fun o t =>
                 BandSample.height t = Z.min 3 (4 - snd o) /\
                 BandSample.width t = Z.min 2 (3 - fst o) /\
                 0 < BandSample.height t /\ 0 < BandSample.width t)
              origins samples).
Proof.
  split.
  - destruct (tile_sizes Demo.externals 2 2) as [Hband _]; [lia | lia |].
    apply (Hband Strip.band); [split; reflexivity | cbn; lia | cbn; lia].
  - destruct (tile_sizes Demo.externals 2 3) as [_ Hsample]; [lia | lia |].
    apply (Hsample Demo.patch). reflexivity.
Defined.

Lemma py_range_zero_step (stop : Z) : py_range 0 stop 0 = Raise ValueError.
Proof. reflexivity. Qed.

Lemma py_range_backwards (stop step : Z) :
  0 <= stop -> step < 0 -> py_range 0 stop step = Ok [].
Proof.
  intros Hstop Hstep. unfold py_range, range_len.
  destruct (Z.eqb_spec step 0); [lia|].
  destruct (Z.ltb_spec 0 step); [lia|].
  destruct (Z.ltb_spec stop 0); [lia|]. reflexivity.
Qed.

Lemma py_range_first (stop step : Z) :
  0 < stop -> 0 < step -> exists rest, py_range 0 stop step = Ok (0 :: rest).
Proof.
  intros Hstop Hstep. rewrite py_range_from_zero by lia.
  pose proof (ceil_div_covers stop step 0 Hstep ltac:(lia)) as Hpos.
  rewrite Z.div_0_l in Hpos by lia.
  destruct (Z.to_nat (ceil_div stop step)) as [|n] eqn:Hn; [lia|].
  cbn [seq map]. eexists. reflexivity.
Qed.

(** The loop nest for tile sizes that are not positive. *)
Lemma tile_origins_degenerate (W H tw th : Z) :
  0 <= W -> 0 <= H ->
  (tw = 0 -> tile_origins W H tw th = Raise ValueError) /\
  (tw < 0 -> tile_origins W H tw th = Ok []) /\
  (0 < tw -> W = 0 -> tile_origins W H tw th = Ok []) /\
  (0 < tw -> 0 < W -> th = 0 -> tile_origins W H tw th = Raise ValueError) /\
  (0 < tw -> th < 0 -> tile_origins W H tw th = Ok []).
Proof.
  intros HW HH. unfold tile_origins. repeat split.
  - intros ->. reflexivity.
  - intros Htw. now rewrite py_range_backwards.
  - intros Htw ->. rewrite py_range_from_zero, Qceiling_div by lia.
    change (- 0) with 0. rewrite Z.div_0_l by lia. reflexivity.
  - intros Htw HW0 ->. destruct (py_range_first W tw HW0 Htw) as [rest ->].
    reflexivity.
  - intros Htw Hth. rewrite py_range_from_zero by lia. cbn [rbind].
    destruct (map _ _) as [|x0 xs]; [reflexivity|].
    rewrite py_range_backwards by lia. cbn [rbind].
    induction (x0 :: xs) as [|x1 l IH]; [reflexivity|].
    cbn [flat_map map app] in *. now injection IH as ->.
Qed.

(** X16. Tile sizes that are not positive. A tile width of 0 makes
    [generate_samples] raise [ValueError] before it yields anything, and so
    does a tile height of 0 on a raster that has columns; a negative tile
    width, or a negative tile height next to a positive width, gives an
    empty sequence and no error. On a raster without columns a tile height
    of 0 goes unnoticed. This holds for bands and for samples. *)
Theorem degenerate_tile_sizes (E : Externals) (tw th : Z) :
  (forall b : Band.t,
      0 <= Band.width b -> 0 <= Band.height b ->
      (tw = 0 -> Band.generate_samples E b tw th = ([], Some ValueError)) /\
      (tw < 0 -> Band.generate_samples E b tw th = ([], None)) /\
      (0 < tw -> Band.width b = 0 ->
       Band.generate_samples E b tw th = ([], None)) /\
      (0 < tw -> 0 < Band.width b -> th = 0 ->
       Band.generate_samples E b tw th = ([], Some ValueError)) /\
      (0 < tw -> th < 0 -> Band.generate_samples E b tw th = ([], None))) /\
  (forall s : BandSample.t,
      (tw = 0 -> BandSample.generate_samples E s tw th = ([], Some ValueError)) /\
      (tw < 0 -> BandSample.generate_samples E s tw th = ([], None)) /\
      (0 < tw -> BandSample.width s = 0 ->
       BandSample.generate_samples E s tw th = ([], None)) /\
      (0 < tw -> 0 < BandSample.width s -> th = 0 ->
       BandSample.generate_samples E s tw th = ([], Some ValueError)) /\
      (0 < tw -> th < 0 ->
       BandSample.generate_samples E s tw th = ([], None))).
Proof.
  split.
  - intros b HW HH.
    destruct (tile_origins_degenerate (Band.width b) (Band.height b) tw th HW HH)
      as (H0 & Hneg & Hempty & Hth0 & Hthneg).
    unfold Band.generate_samples.
    repeat split; intros; first
      [ rewrite H0 by assumption | rewrite Hneg by assumption
      | rewrite Hempty by assumption | rewrite Hth0 by assumption
      | rewrite Hthneg by assumption ]; reflexivity.
  - intros s.
    assert (HW : 0 <= BandSample.width s)
      by (unfold BandSample.width, np.shape_at; lia).
    assert (HH : 0 <= BandSample.height s)
      by (unfold BandSample.height, np.shape_at; lia).
    destruct (tile_origins_degenerate (BandSample.width s)
                (BandSample.height s) tw th HW HH)
      as (H0 & Hneg & Hempty & Hth0 & Hthneg).
    unfold BandSample.generate_samples.
    repeat split; intros; first
      [ rewrite H0 by assumption | rewrite Hneg by assumption
      | rewrite Hempty by assumption | rewrite Hth0 by assumption
      | rewrite Hthneg by assumption ]; reflexivity.
Qed.

Lemma degenerate_tile_sizes_witness :
  Band.generate_samples Demo.externals Strip.band 2 0 = ([], Some ValueError) /\
  BandSample.generate_samples Demo.externals Demo.patch (-2) 2 = ([], None).
Proof.
  split.
  - destruct (degenerate_tile_sizes Demo.externals 2 0) as [Hband _].
    destruct (Hband Strip.band) as (_ & _ & _ & Hzero & _);
      [cbn; lia | cbn; lia |].
    apply Hzero; [lia | cbn; lia | reflexivity].
  - destruct (degenerate_tile_sizes Demo.externals (-2) 2) as [_ Hsample].
    destruct (Hsample Demo.patch) as (_ & Hneg & _). apply Hneg. lia.
Defined.

(** ** Windows of samples *)

Lemma slice2_cell (arr : np.ndarray) (y x h w : Z) (i j : nat) :
  0 <= y -> 0 <= x -> 0 < h -> 0 < w ->
  Z.of_nat i < np.shape_at (np.slice2 arr y (y + h) x (x + w)) 0 ->
  Z.of_nat j < np.shape_at (np.slice2 arr y (y + h) x (x + w)) 1 ->
  np.cell2 (np.slice2 arr y (y + h) x (x + w)) i j
  = np.cell2 arr (Z.to_nat y + i) (Z.to_nat x + j).
Proof.
  intros Hy Hx Hh Hw.
  destruct (slice2_shape arr y x h w) as [-> ->]; try assumption.
  assert (HH : 0 <= np.shape_at arr 0) by (unfold np.shape_at; lia).
  assert (HW : 0 <= np.shape_at arr 1) by (unfold np.shape_at; lia).
  unfold np.slice2.
  rewrite (slice_bounds_nonneg (np.shape_at arr 0) y h) by assumption.
  rewrite (slice_bounds_nonneg (np.shape_at arr 1) x w) by assumption.
  set (H := np.shape_at arr 0) in *. set (W := np.shape_at arr 1) in *.
  intros Hi Hj. rewrite cell2_tabulate2 by lia. f_equal; lia.
Qed.

(** X19. Windows of samples compose as well. Taking the window
    (y', x', h', w') of the sample that [BandSample.sample(y, x, h, w)]
    returned, with the inner window inside the outer one, gives what
    [BandSample.sample(y + y', x + x', h', w')] gives directly: the same
    shape and the same cells, also when the source cuts the windows
    short. *)
Theorem sample_windows_compose (E : Externals) (s : BandSample.t)
    (y x h w y' x' h' w' : Z) :
  is_valid (BandSample.crs s) = true ->
  0 <= y -> 0 <= x -> 0 <= y' -> 0 <= x' -> 0 < h' -> 0 < w' ->
  y' + h' <= h -> x' + w' <= w ->
  exists s1 s2 s3,
    BandSample.sample E s y x h w = Ok s1 /\
    BandSample.sample E s1 y' x' h' w' = Ok s2 /\
    BandSample.sample E s (y + y') (x + x') h' w' = Ok s3 /\
    BandSample.height s2 = BandSample.height s3 /\
    BandSample.width s2 = BandSample.width s3 /\
    forall i j : nat,
      Z.of_nat i < BandSample.height s3 -> Z.of_nat j < BandSample.width s3 ->
      np.cell2 (BandSample.numpy s2) i j = np.cell2 (BandSample.numpy s3) i j.
Proof.
  intros Hvalid Hy Hx Hy' Hx' Hh' Hw' Hyh Hxw.
  eexists _, _, _. split; [apply BandSample_sample_ok, Hvalid|].
  split; [apply BandSample_sample_ok; exact Hvalid|].
  split; [apply BandSample_sample_ok, Hvalid|].
  unfold BandSample.height, BandSample.width, BandSample.numpy.
  cbn [BandSample._raster].
  set (arr := BandSample._raster s).
  set (outer := np.slice2 arr y (y + h) x (x + w)).
  assert (HH : 0 <= np.shape_at arr 0) by (unfold np.shape_at; lia).
  assert (HW : 0 <= np.shape_at arr 1) by (unfold np.shape_at; lia).
  assert (Hh0 : 0 < h) by lia. assert (Hw0 : 0 < w) by lia.
  destruct (slice2_shape arr y x h w Hy Hx Hh0 Hw0) as [Ho0 Ho1].
  fold outer in Ho0, Ho1.
  destruct (slice2_shape outer y' x' h' w' Hy' Hx' Hh' Hw') as [Hi0 Hi1].
  destruct (slice2_shape arr (y + y') (x + x') h' w') as [Hd0 Hd1]; try lia.
  rewrite Ho0 in Hi0. rewrite Ho1 in Hi1.
  set (H := np.shape_at arr 0) in *. set (W := np.shape_at arr 1) in *.
  assert (Heq0 : np.shape_at (np.slice2 outer y' (y' + h') x' (x' + w')) 0
                 = np.shape_at (np.slice2 arr (y + y') (y + y' + h')
                                          (x + x') (x + x' + w')) 0)
    by (rewrite Hi0, Hd0; clear - Hy Hy' Hh' Hyh HH; lia).
  assert (Heq1 : np.shape_at (np.slice2 outer y' (y' + h') x' (x' + w')) 1
                 = np.shape_at (np.slice2 arr (y + y') (y + y' + h')
                                          (x + x') (x + x' + w')) 1)
    by (rewrite Hi1, Hd1; clear - Hx Hx' Hw' Hxw HW; lia).
  split; [exact Heq0|]. split; [exact Heq1|].
  intros i j Hi Hj.
  assert (Hi' : Z.of_nat i
                < np.shape_at (np.slice2 outer y' (y' + h') x' (x' + w')) 0)
    by (rewrite Heq0; exact Hi).
  assert (Hj' : Z.of_nat j
                < np.shape_at (np.slice2 outer y' (y' + h') x' (x' + w')) 1)
    by (rewrite Heq1; exact Hj).
  assert (Hyy : 0 <= y + y') by (clear - Hy Hy'; lia).
  assert (Hxx : 0 <= x + x') by (clear - Hx Hx'; lia).
  rewrite (slice2_cell outer y' x' h' w' i j Hy' Hx' Hh' Hw' Hi' Hj').
  rewrite (slice2_cell arr (y + y') (x + x') h' w' i j Hyy Hxx Hh' Hw' Hi Hj).
  assert (Hrow : Z.of_nat (Z.to_nat y' + i) < np.shape_at outer 0).
  { rewrite Ho0. rewrite Hd0 in Hi. clear - Hi Hy Hy' Hh' Hyh HH. lia. }
  assert (Hcol : Z.of_nat (Z.to_nat x' + j) < np.shape_at outer 1).
  { rewrite Ho1. rewrite Hd1 in Hj. clear - Hj Hx Hx' Hw' Hxw HW. lia. }
  unfold outer in Hrow, Hcol |- *.
  rewrite (slice2_cell arr y x h w _ _ Hy Hx Hh0 Hw0 Hrow Hcol).
  f_equal; clear - Hy Hy' Hx Hx'; lia.
Qed.

Lemma sample_windows_compose_witness :
  exists s1 s2 s3,
    BandSample.sample Demo.externals Demo.patch 1 1 3 2 = Ok s1 /\
    BandSample.sample Demo.externals s1 1 0 2 2 = Ok s2 /\
    BandSample.sample Demo.externals Demo.patch 2 1 2 2 = Ok s3 /\
    BandSample.height s2 = BandSample.height s3 /\
    BandSample.width s2 = BandSample.width s3.
Proof.
  destruct (sample_windows_compose Demo.externals Demo.patch 1 1 3 2 1 0 2 2)
    as (s1 & s2 & s3 & H1 & H2 & H3 & Hh & Hw & _);
    [reflexivity | lia | lia | lia | lia | lia | lia | lia | lia |].
  exists s1, s2, s3. repeat split; assumption.
Defined.

(** ** Resampling a band to its own resolution *)

Lemma py_round_of_integer (x : Q) (n : Z) :
  (x == inject_Z n)%Q -> py_round x = n.
Proof.
  intros Hx. unfold py_round.
  assert (Hfl : Qfloor x = n) by (rewrite Hx; apply Qfloor_Z).
  rewrite Hfl.
  assert (Hcmp : Qcompare (x - inject_Z n) (1 # 2) = Lt).
  { rewrite Hx. apply -> Qlt_alt. ring_simplify. reflexivity. }
  now rewrite Hcmp.
Qed.

Lemma own_ratio (n : Z) (r : Q) :
  ~ (r == 0)%Q -> (inject_Z n / (r / r) == inject_Z n)%Q.
Proof. intros Hr. field. repeat split; exact Hr. Qed.

(** X20. Resampling a band to its own resolution, [resample(self.res)],
    keeps its width and height, for a band of positive size and a
    destination that has a directory. The transform of the result equals
    that of the source when that one is north-up and unrotated already
    (a > 0, e < 0, b = d = 0). *)
Theorem resample_to_own_resolution (E : Externals) (b : Band.t)
    (fp : option string) (interpolation : string) (w : world)
    (r : Resampling) :
  has_directory fp ->
  ~ (fst (Band.res b) == 0)%Q -> ~ (snd (Band.res b) == 0)%Q ->
  0 < Band.width b -> 0 < Band.height b ->
  Resampling_getattr interpolation = Ok r ->
  exists b' w',
    Band.resample E b (Band.res b) fp interpolation w = (Ok b', w') /\
    Band.width b' = Band.width b /\
    Band.height b' = Band.height b /\
    ((0 < aff_a (Band.transform b))%Q -> (aff_e (Band.transform b) < 0)%Q ->
     (aff_b (Band.transform b) == 0)%Q -> (aff_d (Band.transform b) == 0)%Q ->
     Affine_eqb (Band.transform b') (Band.transform b) = true).
Proof.
  intros Hfp Hx Hy Hwpos Hhpos Hr.
  pose proof (py_round_of_integer _ _ (own_ratio (Band.width b) _ Hx)) as Hw1.
  pose proof (py_round_of_integer _ _ (own_ratio (Band.height b) _ Hy)) as Hh1.
  change (Band.res b) with (fst (Band.res b), snd (Band.res b)) at 1.
  destruct (Band_resample_ok E b (fst (Band.res b)) (snd (Band.res b)) fp
              interpolation w r Hfp Hx Hy Hx Hy)
    as (path & pixels & w' & Hres & _ & _);
    [now rewrite Hw1 | now rewrite Hh1 | exact Hr |].
  eexists _, w'. split; [exact Hres|].
  match goal with |- Band.width ?bb = _ /\ _ => set (b' := bb) end.
  assert (Hw' : Band.width b'
                = py_round (inject_Z (Band.width b)
                            / (fst (Band.res b) / fst (Band.res b))))
    by reflexivity.
  assert (Hh' : Band.height b'
                = py_round (inject_Z (Band.height b)
                            / (snd (Band.res b) / snd (Band.res b))))
    by reflexivity.
  assert (Htr : Band.transform b'
                = mkAffine (Qabs (aff_a (Band.transform b)))
                           (aff_b (Band.transform b)) (aff_c (Band.transform b))
                           (aff_d (Band.transform b))
                           (- Qabs (aff_e (Band.transform b)))%Q
                           (aff_f (Band.transform b)))
    by reflexivity.
  rewrite Hw', Hh', Htr. clear Hw' Hh' Htr Hres b'.
  split; [exact Hw1|]. split; [exact Hh1|].
  intros Ha He _ _. apply Affine_eqb_iff.
  cbn [aff_a aff_b aff_c aff_d aff_e aff_f].
  repeat split; try reflexivity.
  - apply Qabs_pos. now apply Qlt_le_weak.
  - rewrite Qabs_neg by now apply Qlt_le_weak. ring.
Qed.

Lemma resample_to_own_resolution_witness :
  exists b' w',
    Band.resample Demo.externals Strip.band (Band.res Strip.band) None
                  "nearest" Strip.disk = (Ok b', w') /\
    Band.width b' = 3 /\ Band.height b' = 2 /\
    Affine_eqb (Band.transform b') (Band.transform Strip.band) = true.
Proof.
  destruct (resample_to_own_resolution Demo.externals Strip.band None
              "nearest" Strip.disk R_nearest)
    as (b' & w' & Hb & Hw & Hh & Htr);
    [discriminate | discriminate | discriminate | reflexivity | reflexivity
    | reflexivity |].
  exists b', w'. split; [exact Hb|]. split; [exact Hw|]. split; [exact Hh|].
  apply Htr; reflexivity.
Defined.
